(** * Medical appointments dashboard

    A shallow embedding of the data pipeline of [dashboard/app.py] and of the
    report of [dashboard/demo_insights.py]: ingestion and cleaning, the
    summary statistics, the per-chart aggregations, the filter reconciliation
    of the [update_charts] callback and the figures of the report.

    A pandas DataFrame is a list of rows, a column a function of the row.  A
    cell that pandas holds as NaN/NaT is [None].  Chart styling and page
    layout are not modelled: every [create_*] function below returns the table
    that the source hands to plotly. *)

From Stdlib Require Import ZArith QArith Qround String Ascii List Lia Lqa.
From stdpp Require Import base option list sorting strings gmap gmultiset numbers.

Local Open Scope string_scope.
Local Open Scope list_scope.
Local Open Scope Z_scope.

(** ** Numbers *)

(** numpy's [int64]: the result of an integer operation is reduced into
    [-2^63, 2^63). *)
Definition wrap64 (z : Z) : Z := (z + 2 ^ 63) mod 2 ^ 64 - 2 ^ 63.

Module Np.

(** A [float64] value.  Finite values are kept as exact rationals: the
    rounding of binary floating point is not modelled, the special values
    are. *)
Inductive float : Type :=
| nan
| inf (negative : bool)
| fin (q : Q).

Definition Qneg (q : Q) : bool := bool_decide (Qnum q < 0).
Definition Qzero (q : Q) : bool := bool_decide (Qnum q = 0).

Definition sub (a b : float) : float :=
  match a, b with
  | nan, _ | _, nan => nan
  | fin x, fin y => fin (x - y)
  | inf s, inf t => if Bool.eqb s t then nan else inf s
  | inf s, fin _ => inf s
  | fin _, inf t => inf (negb t)
  end.

Definition mul (a b : float) : float :=
  match a, b with
  | nan, _ | _, nan => nan
  | fin x, fin y => fin (x * y)
  | inf s, inf t => inf (xorb s t)
  | inf s, fin y | fin y, inf s =>
      if Qzero y then nan else inf (xorb s (Qneg y))
  end.

(** IEEE division: [0/0] is [nan], [x/0] is an infinity; nothing raises. *)
Definition div (a b : float) : float :=
  match a, b with
  | nan, _ | _, nan => nan
  | fin x, fin y =>
      if Qzero y then (if Qzero x then nan else inf (Qneg x))
      else fin (x / y)
  | inf _, inf _ => nan
  | inf s, fin y => inf (xorb s (Qneg y))
  | fin _, inf _ => fin 0
  end.

Definition of_Z (z : Z) : float := fin (inject_Z z).

(** [a <= b] on floats is false as soon as one side is [nan]. *)
Definition le (a b : float) : bool :=
  match a, b with
  | nan, _ | _, nan => false
  | fin x, fin y => Qle_bool x y
  | inf s, inf t => implb t s
  | inf s, fin _ => s
  | fin _, inf t => negb t
  end.

End Np.

(** ** Python's arithmetic operators

    [-], [/] and [*] dispatch on the run-time type of their operands.  Between
    built-in numbers a zero divisor raises [ZeroDivisionError]; as soon as one
    operand is a numpy scalar the operation is numpy's, which returns [nan] or
    an infinity (and emits a warning) instead. *)

Inductive pynum : Type :=
| PyInt (z : Z)
| PyFloat (f : Np.float)
| NpInt64 (z : Z)
| NpFloat64 (f : Np.float).

Inductive exn : Type := ZeroDivisionError.

Inductive result (A : Type) : Type :=
| Ok (a : A)
| Raise (e : exn).
Arguments Ok {A} a.
Arguments Raise {A} e.

#[global] Instance result_ret : MRet result := @Ok.
#[global] Instance result_bind : MBind result := λ A B f m,
  match m with Ok a => f a | Raise e => Raise e end.

Definition to_float (a : pynum) : Np.float :=
  match a with
  | PyInt z | NpInt64 z => Np.of_Z z
  | PyFloat f | NpFloat64 f => f
  end.

Definition is_numpy (a : pynum) : bool :=
  match a with NpInt64 _ | NpFloat64 _ => true | _ => false end.

Definition is_zero (a : pynum) : bool :=
  match a with
  | PyInt z | NpInt64 z => bool_decide (z = 0)
  | PyFloat (Np.fin q) | NpFloat64 (Np.fin q) => Np.Qzero q
  | _ => false
  end.

Definition py_sub (a b : pynum) : result pynum :=
  match a, b with
  | PyInt x, PyInt y => Ok (PyInt (x - y))
  | NpInt64 x, PyInt y | PyInt x, NpInt64 y | NpInt64 x, NpInt64 y =>
      Ok (NpInt64 (wrap64 (x - y)))
  | _, _ =>
      let f := Np.sub (to_float a) (to_float b) in
      Ok (if is_numpy a || is_numpy b then NpFloat64 f else PyFloat f)
  end.

Definition py_mul (a b : pynum) : result pynum :=
  match a, b with
  | PyInt x, PyInt y => Ok (PyInt (x * y))
  | NpInt64 x, PyInt y | PyInt x, NpInt64 y | NpInt64 x, NpInt64 y =>
      Ok (NpInt64 (wrap64 (x * y)))
  | _, _ =>
      let f := Np.mul (to_float a) (to_float b) in
      Ok (if is_numpy a || is_numpy b then NpFloat64 f else PyFloat f)
  end.

Definition py_truediv (a b : pynum) : result pynum :=
  if is_numpy a || is_numpy b
  then Ok (NpFloat64 (Np.div (to_float a) (to_float b)))
  else if is_zero b then Raise ZeroDivisionError
  else Ok (PyFloat (Np.div (to_float a) (to_float b))).

(** ** Series reductions *)

(** [Series.sum()] of an integer column: a numpy [int64]. *)
Definition series_sum (l : list Z) : pynum := NpInt64 (wrap64 (foldr Z.add 0 l)).

(** [Series.mean()] of an integer column: the values are accumulated as
    [float64]; the mean of an empty column is [nan]. *)
Definition series_mean (l : list Z) : Np.float :=
  match l with
  | [] => Np.nan
  | _ => Np.fin (inject_Z (foldr Z.add 0 l) / inject_Z (Z.of_nat (length l)))
  end.

(** [Series.quantile(q)] with the default linear interpolation, for [q] given
    as the fraction [num/den]: the value at the fractional position
    [(n - 1) * q] of the sorted column. *)
Definition series_quantile (num den : Z) (l : list Z) : Np.float :=
  match l with
  | [] => Np.nan
  | _ =>
      let s := merge_sort Z.le l in
      let h := (Z.of_nat (length l) - 1) * num in
      let lo := Z.to_nat (h / den) in
      let a := default 0 (s !! lo) in
      let b := default a (s !! S lo) in
      Np.fin (inject_Z a + inject_Z (b - a) * (inject_Z (h mod den) / inject_Z den))
  end.

(** ** Strings *)

Module Str.

(** The text cells are modelled on ASCII text, one character a code point
    below 128; there the white space and the cased characters are those of
    Python's [str].  The cases that Python knows for letters outside ASCII
    are not modelled. *)

(** [str.isspace] on the ASCII range. *)
Definition isspace (c : ascii) : bool :=
  let n := nat_of_ascii c in
  bool_decide (n = 32 ∨ 9 ≤ n ≤ 13 ∨ 28 ≤ n ≤ 31)%nat.

Definition islower (c : ascii) : bool :=
  bool_decide (97 ≤ nat_of_ascii c ≤ 122)%nat.
Definition isupper (c : ascii) : bool :=
  bool_decide (65 ≤ nat_of_ascii c ≤ 90)%nat.
Definition upper (c : ascii) : ascii :=
  if islower c then ascii_of_nat (nat_of_ascii c - 32) else c.
Definition lower (c : ascii) : ascii :=
  if isupper c then ascii_of_nat (nat_of_ascii c + 32) else c.

Fixpoint lstrip (s : string) : string :=
  match s with
  | String c s' => if isspace c then lstrip s' else s
  | EmptyString => EmptyString
  end.

(** [str.strip()]: leading and trailing white space removed. *)
Definition strip (s : string) : string :=
  String.rev (lstrip (String.rev (lstrip s))).

(** [str.title()]: a cased character is upper-cased when it follows an
    uncased one (or starts the string) and lower-cased otherwise.  Only the
    ASCII letters count as cased here; other bytes pass unchanged. *)
Fixpoint title_go (previous_is_cased : bool) (s : string) : string :=
  match s with
  | EmptyString => EmptyString
  | String c s' =>
      if islower c || isupper c
      then String (if previous_is_cased then lower c else upper c)
                  (title_go true s')
      else String c (title_go false s')
  end.
Definition title : string → string := title_go false.

End Str.

(** ** Timestamps

    A parsed [datetime64[ns]] value is its number of nanoseconds since
    1970-01-01T00:00:00 (a Thursday). *)

Definition ns_per_day : Z := 86400 * 10 ^ 9.

(** [Timedelta.days]: whole days, rounded towards minus infinity. *)
Definition timedelta_days (delta : Z) : Z := delta / ns_per_day.

(** [Timestamp.dayofweek]: 0 is Monday, 6 is Sunday. *)
Definition dayofweek (t : Z) : Z := (t / ns_per_day + 3) mod 7.

(** ** [pd.cut(x, bins, labels, right=False)] *)

(** [bins.searchsorted(x, side="right")]: the index of the first edge that
    is greater than [x]. *)
Fixpoint searchsorted_right (bins : list Z) (x : Z) : nat :=
  match bins with
  | [] => 0
  | b :: bins' => if decide (x < b) then 0 else S (searchsorted_right bins' x)
  end.

(** A value left of the first edge or not left of the last edge falls in no
    bin and gets no label. *)
Definition cut (bins : list Z) (labels : list string) (x : Z) : option string :=
  let ids := searchsorted_right bins x in
  if decide (ids = 0 ∨ ids = length bins)%nat then None
  else labels !! (ids - 1)%nat.

(** ** The input table *)

Module Csv.
(** One row as [pd.read_csv] and [pd.to_datetime] deliver it.  The
    identifiers, the age and the six flags are integer columns of the file,
    the two days are parsed timestamps; an empty cell is [None]. *)
Record row : Type := mk {
  PatientId : option Z;
  AppointmentID : option Z;
  Gender : option string;
  ScheduledDay : option Z;
  AppointmentDay : option Z;
  Age : option Z;
  Neighbourhood : option string;
  Scholarship : option Z;
  Hipertension : option Z;
  Diabetes : option Z;
  Alcoholism : option Z;
  Handcap : option Z;
  SMS_received : option Z;
  No_show : option string
}.
End Csv.

(** One row of a table without missing cells: the fourteen columns of the
    file and the five derived ones. *)
Record Row : Type := mkRow {
  PatientId : Z;
  AppointmentID : Z;
  Gender : string;
  ScheduledDay : Z;
  AppointmentDay : Z;
  Age : Z;
  Neighbourhood : string;
  Scholarship : Z;
  Hipertension : Z;
  Diabetes : Z;
  Alcoholism : Z;
  Handcap : Z;
  SMS_received : Z;
  No_show : string;
  DaysWaiting : Z;
  DayOfWeek : Z;
  DayOfWeekName : string;
  AgeGroup : string;
  NoShow_Binary : Z
}.

Definition DataFrame : Type := list Row.

(** ** [load_and_clean_data] *)

Definition day_names : gmap Z string :=
  list_to_map [(0, "Monday"); (1, "Tuesday"); (2, "Wednesday"); (3, "Thursday");
               (4, "Friday"); (5, "Saturday"); (6, "Sunday")].

Definition age_bins : list Z := [0; 18; 36; 56; 120].
Definition age_labels : list string :=
  ["Children (0-17)"; "Young Adults (18-35)"; "Middle-aged (36-55)"; "Seniors (56+)"].

Module Derived.
(** The columns that [load_and_clean_data] adds, as functions of the row. *)

Definition DaysWaiting (c : Csv.row) : option Z :=
  a ← Csv.AppointmentDay c; s ← Csv.ScheduledDay c; Some (timedelta_days (a - s)).

Definition DayOfWeek (c : Csv.row) : option Z :=
  dayofweek <$> Csv.AppointmentDay c.

Definition DayOfWeekName (c : Csv.row) : option string :=
  d ← DayOfWeek c; day_names !! d.

Definition AgeGroup (c : Csv.row) : option string :=
  a ← Csv.Age c; cut age_bins age_labels a.

(** [(df['No-show'] == 'Yes').astype(int)]; a missing cell compares unequal. *)
Definition NoShow_Binary (c : Csv.row) : Z :=
  if decide (Csv.No_show c = Some "Yes") then 1 else 0.

Definition Neighbourhood (c : Csv.row) : option string :=
  (λ s, Str.title (Str.strip s)) <$> Csv.Neighbourhood c.

End Derived.

(** [df.dropna()] on one row of the table with its derived columns: the row
    is kept when none of its nineteen cells is missing. *)
Definition dropna (c : Csv.row) : option Row :=
  PatientId ← Csv.PatientId c;
  AppointmentID ← Csv.AppointmentID c;
  Gender ← Csv.Gender c;
  ScheduledDay ← Csv.ScheduledDay c;
  AppointmentDay ← Csv.AppointmentDay c;
  Age ← Csv.Age c;
  Neighbourhood ← Derived.Neighbourhood c;
  Scholarship ← Csv.Scholarship c;
  Hipertension ← Csv.Hipertension c;
  Diabetes ← Csv.Diabetes c;
  Alcoholism ← Csv.Alcoholism c;
  Handcap ← Csv.Handcap c;
  SMS_received ← Csv.SMS_received c;
  No_show ← Csv.No_show c;
  DaysWaiting ← Derived.DaysWaiting c;
  DayOfWeek ← Derived.DayOfWeek c;
  DayOfWeekName ← Derived.DayOfWeekName c;
  AgeGroup ← Derived.AgeGroup c;
  Some (mkRow PatientId AppointmentID Gender ScheduledDay AppointmentDay Age
          Neighbourhood Scholarship Hipertension Diabetes Alcoholism Handcap
          SMS_received No_show DaysWaiting DayOfWeek DayOfWeekName AgeGroup
          (Derived.NoShow_Binary c)).

(** The table is that of a file whose columns [read_csv] types as the code
    expects.  In a file with rows, a neighbourhood column that is empty
    throughout is read as numbers and [.str] raises; when the time stamps
    carry a time zone, a date column that is empty throughout is parsed
    without one and cannot be subtracted from the other.  On such files the
    code returns no table, and they are outside this definition. *)
Definition load_and_clean_data (csv : list Csv.row) : DataFrame :=
  let df := omap dropna csv in
  let df := filter (λ r, 0 ≤ DaysWaiting r) df in
  let df := filter (λ r, 0 ≤ Age r ∧ Age r ≤ 120) df in
  df.

(** ** [calculate_summary_statistics] *)

(** A column name of the condition lists, with the column it denotes. *)
Definition summary_conditions : list (string * (Row → Z)) :=
  [("Hipertension", Hipertension); ("Diabetes", Diabetes); ("Alcoholism", Alcoholism)].

Record Summary : Type := mkSummary {
  total_appointments : pynum;
  show_rate : pynum;
  no_show_rate : pynum;
  avg_age : Np.float;
  avg_waiting_days : Np.float;
  (** [value_counts()]: how often each value occurs (the display order of the
      resulting Series is not kept). *)
  gender_counts : gmultiset string;
  condition_stats : list (string * pynum)
}.

(** [len(df)] is a built-in [int], [Series.sum()] a numpy scalar. *)
Definition calculate_summary_statistics (df : DataFrame) : result Summary :=
  let total_appointments := PyInt (Z.of_nat (length df)) in
  let no_shows := series_sum (NoShow_Binary <$> df) in
  shows ← py_sub total_appointments no_shows;
  q ← py_truediv shows total_appointments;
  show_rate ← py_mul q (PyInt 100);
  q ← py_truediv no_shows total_appointments;
  no_show_rate ← py_mul q (PyInt 100);
  let avg_age := series_mean (Age <$> df) in
  let avg_waiting_days := series_mean (DaysWaiting <$> df) in
  let gender_counts := list_to_set_disj (Gender <$> df) in
  condition_stats ←
    mapM (λ condition : string * (Row → Z),
            q ← py_truediv (series_sum (condition.2 <$> df))
                           (PyInt (Z.of_nat (length df)));
            v ← py_mul q (PyInt 100);
            mret (condition.1, v))
         summary_conditions;
  mret (mkSummary total_appointments show_rate no_show_rate avg_age
          avg_waiting_days gender_counts condition_stats).

(** ** Grouping and ordering *)

(** [df.groupby(key)] on a column of plain values: one group per value that
    occurs, the groups in ascending key order, the rows of a group in table
    order. *)
Definition groupby {K : Type} `{EqDecision K} (R : relation K) `{!RelDecision R}
    (key : Row → K) (df : DataFrame) : list (K * DataFrame) :=
  (λ k, (k, filter (λ r, key r = k) df)) <$> merge_sort R (remove_dups (key <$> df)).

(** The code of a value in [pd.Categorical(_, categories, ordered=True)]: its
    position among the categories; a value that is no category becomes NaN. *)
Definition category_code (categories : list string) (v : string) : option nat :=
  fst <$> list_find (λ c, c = v) categories.

(** [sort_values] on an ordered categorical column: the rows that have a code
    are ordered by it, the NaN rows follow in their previous order.  (Among
    rows of one code the order is the sorting algorithm's; the tables sorted
    here have one row per value.) *)
Definition by_code {A : Type} : relation (nat * A) := λ x y, (x.1 ≤ y.1)%nat.
#[global] Instance by_code_dec {A : Type} : RelDecision (@by_code A) :=
  λ x y, decide (x.1 ≤ y.1)%nat.

Definition sort_values {A : Type} (code : A → option nat) (l : list A) : list A :=
  (snd <$> merge_sort by_code (omap (λ a, (λ c, (c, a)) <$> code a) l))
  ++ filter (λ a, code a = None) l.

(** A stable sort: [x], which precedes every row of [l] in the table, is put
    in front of the first row that it may precede. *)
Fixpoint insert_sorted {A : Type} (R : relation A) `{!RelDecision R}
    (x : A) (l : list A) : list A :=
  match l with
  | [] => [x]
  | y :: l' => if decide (R x y) then x :: l else y :: insert_sorted R x l'
  end.

Definition stable_sort {A : Type} (R : relation A) `{!RelDecision R}
    (l : list A) : list A :=
  foldr (insert_sorted R) [] l.

Definition descending {A : Type} (column : A → nat) : relation A :=
  λ x y, (column y ≤ column x)%nat.
#[global] Instance descending_dec {A : Type} (column : A → nat) :
  RelDecision (descending column) := λ x y, decide (column y ≤ column x)%nat.

(** [nlargest(n, column)] with the default [keep="first"]: the first [n] rows
    of the table ordered by descending column value, rows of equal value in
    table order. *)
Definition nlargest {A : Type} (n : nat) (column : A → nat) (l : list A) : list A :=
  take n (stable_sort (descending column) l).

(** ** [create_day_of_week_analysis] *)

Module Day.
Record stats : Type := mk {
  DayOfWeek : string;
  TotalAppointments : nat;
  NoShows : pynum;
  NoShowRate : Np.float
}.
End Day.

Definition day_order : list string :=
  ["Monday"; "Tuesday"; "Wednesday"; "Thursday"; "Friday"; "Saturday"; "Sunday"].

(** The rows of [day_stats] after the sort, as the traces of the figure read
    them.  A name outside [day_order] is a NaN of the categorical column: it
    has no code. *)
Definition create_day_of_week_analysis (df : DataFrame) : list Day.stats :=
  let day_stats :=
    (λ g : string * DataFrame,
       Day.mk g.1 (length g.2) (series_sum (NoShow_Binary <$> g.2))
              (series_mean (NoShow_Binary <$> g.2)))
    <$> groupby String.le DayOfWeekName df in
  let day_stats :=
    (λ s, Day.mk (Day.DayOfWeek s) (Day.TotalAppointments s) (Day.NoShows s)
                 (Np.mul (Day.NoShowRate s) (Np.of_Z 100)))
    <$> day_stats in
  sort_values (λ s, category_code day_order (Day.DayOfWeek s)) day_stats.

(** ** [create_waiting_time_analysis] *)

(** [df_filtered], the table the histogram is drawn from. *)
Definition create_waiting_time_analysis (df : DataFrame) : DataFrame :=
  let waiting_time_95th := series_quantile 95 100 (DaysWaiting <$> df) in
  filter (λ r, Np.le (Np.of_Z (DaysWaiting r)) waiting_time_95th = true) df.

(** ** [create_medical_conditions_analysis] *)

Module Condition.
Record stats : Type := mk {
  Condition : string;
  Group : string;
  NoShowRate : Np.float
}.
End Condition.

Definition conditions : list (string * (Row → Z)) :=
  [("Hipertension", Hipertension); ("Diabetes", Diabetes);
   ("Alcoholism", Alcoholism); ("Handcap", Handcap)].

(** [df[df[condition] == v]['NoShow_Binary'].mean() * 100] *)
Definition condition_rate (column : Row → Z) (v : Z) (df : DataFrame) : Np.float :=
  Np.mul (series_mean (NoShow_Binary <$> filter (λ r, column r = v) df))
         (Np.of_Z 100).

(** [condition_df]: two rows per condition. *)
Definition create_medical_conditions_analysis (df : DataFrame) : list Condition.stats :=
  condition ← conditions;
  let with_condition := condition_rate condition.2 1 df in
  let without_condition := condition_rate condition.2 0 df in
  [Condition.mk condition.1 "With Condition" with_condition;
   Condition.mk condition.1 "Without Condition" without_condition].

(** ** [create_neighborhood_analysis] *)

Module Nbh.
Record stats : Type := mk {
  Neighbourhood : string;
  TotalAppointments : nat;
  NoShowRate : Np.float
}.
End Nbh.

Definition neighborhood_stats (df : DataFrame) : list Nbh.stats :=
  (λ g : string * DataFrame,
     Nbh.mk g.1 (length g.2)
            (Np.mul (series_mean (NoShow_Binary <$> g.2)) (Np.of_Z 100)))
  <$> groupby String.le Neighbourhood df.

(** [top_neighborhoods]; [None] stands for a call that leaves [top_n] to its
    default. *)
Definition create_neighborhood_analysis (df : DataFrame) (top_n : option nat)
    : list Nbh.stats :=
  let top_n := default 15%nat top_n in
  nlargest top_n Nbh.TotalAppointments (neighborhood_stats df).

(** ** [update_charts] *)

(** [filtered_df], the view that the callback computes from the base table
    [df] and the three controls. *)
Definition filtered_df (df : DataFrame) (age_group gender : string)
    (max_waiting_days : Z) : DataFrame :=
  let filtered_df := df in
  let filtered_df :=
    if decide (age_group ≠ "all")
    then filter (λ r, AgeGroup r = age_group) filtered_df else filtered_df in
  let filtered_df :=
    if decide (gender ≠ "all")
    then filter (λ r, Gender r = gender) filtered_df else filtered_df in
  filter (λ r, DaysWaiting r ≤ max_waiting_days) filtered_df.

(** ** Errors of conversions and of plotly *)

Inductive pyerror : Type :=
| ValueError
| OverflowError
| KeyError
| TypeError
| Raised (e : exn).

Inductive outcome (A : Type) : Type :=
| Done (a : A)
| Fail (e : pyerror).
Arguments Done {A} a.
Arguments Fail {A} e.

#[global] Instance outcome_ret : MRet outcome := @Done.
#[global] Instance outcome_bind : MBind outcome := λ A B f m,
  match m with Done a => f a | Fail e => Fail e end.

(** An error of an arithmetic operator, passed on. *)
Definition lift {A : Type} (m : result A) : outcome A :=
  match m with Ok a => Done a | Raise e => Fail (Raised e) end.

(** [int(x)] on a float: the fraction is cut off (rounding towards zero);
    [nan] and the infinities have no integer value. *)
Definition py_int (x : Np.float) : outcome Z :=
  match x with
  | Np.nan => Fail ValueError
  | Np.inf _ => Fail OverflowError
  | Np.fin q => Done (if Np.Qneg q then Qceiling q else Qfloor q)
  end.

(** The arguments of a plotly express figure that are given as lists must
    all have the same length; the figure pairs them by position. *)
Definition px_pie {A B : Type} (values : list A) (names : list B)
    : outcome (list (B * A)) :=
  if decide (length values = length names) then Done (zip names values)
  else Fail ValueError.

(** ** [create_no_show_overview_chart] *)

(** The distinct values of a column in the order of their first occurrence. *)
Definition first_seen (l : list string) : list string :=
  reverse (remove_dups (reverse l)).

(** [Series.value_counts()]: the values with their number of occurrences, the
    most frequent first; values that occur equally often stay in the order
    of their first occurrence. *)
Definition value_counts (l : list string) : list (string * nat) :=
  stable_sort (descending snd)
    ((λ v, (v, length (filter (λ x, x = v) l))) <$> first_seen l).

(** The slices of the pie: the counts of [show_counts], named by position. *)
Definition create_no_show_overview_chart (df : DataFrame)
    : outcome (list (string * nat)) :=
  let show_counts := value_counts (No_show <$> df) in
  px_pie (snd <$> show_counts) ["Showed Up"; "No Show"].

(** ** [create_age_gender_analysis] *)

Module AgeGender.
Record stats : Type := mk {
  AgeGroup : string;
  Gender : string;
  count : nat;
  sum : pynum;
  NoShowRate : Np.float
}.
End AgeGender.

(** [age_gender_stats].  [AgeGroup] is a categorical column, and whether
    [groupby] lists the combinations of a category and a gender that have no
    row depends on its [observed] option, whose default differs between
    pandas versions; it is a parameter here.  The rows are ordered by age
    group, in the order of the categories, then by gender.  The rate is a
    division of two columns, which yields NaN for 0/0. *)
Definition create_age_gender_analysis (observed : bool) (df : DataFrame)
    : list AgeGender.stats :=
  let genders := merge_sort String.le (remove_dups (Gender <$> df)) in
  let keys := age_group ← age_labels; gender ← genders; [(age_group, gender)] in
  let keys :=
    if observed
    then filter (λ k, Exists (λ r, AgeGroup r = k.1 ∧ Gender r = k.2) df) keys
    else keys in
  (λ k : string * string,
     let group := filter (λ r, AgeGroup r = k.1 ∧ Gender r = k.2) df in
     let count := length group in
     let sum := wrap64 (foldr Z.add 0 (NoShow_Binary <$> group)) in
     AgeGender.mk k.1 k.2 count (NpInt64 sum)
       (Np.mul (Np.div (Np.of_Z sum) (Np.of_Z (Z.of_nat count))) (Np.of_Z 100)))
  <$> keys.

(** ** [create_sms_scholarship_analysis] *)

(** [df.groupby(column)['NoShow_Binary'].mean() * 100]: one rate per value of
    the flag that occurs, in ascending order of the flag. *)
Definition flag_rates (column : Row → Z) (df : DataFrame) : list (Z * Np.float) :=
  (λ g : Z * DataFrame,
     (g.1, Np.mul (series_mean (NoShow_Binary <$> g.2)) (Np.of_Z 100)))
  <$> groupby Z.le column df.

(** The [x] and [y] lists of the two bar traces.  A bar trace takes the two
    lists as they are and draws the pairs it can form by position. *)
Definition create_sms_scholarship_analysis (df : DataFrame)
    : (list string * list Np.float) * (list string * list Np.float) :=
  let sms_stats := flag_rates SMS_received df in
  let scholarship_stats := flag_rates Scholarship df in
  ((["No SMS"; "SMS Received"], snd <$> sms_stats),
   (["No Scholarship"; "Has Scholarship"], snd <$> scholarship_stats)).

(** ** The slider and the callback *)

(** The value (and the upper end) of the waiting-days slider when the page is
    built: [int(df['DaysWaiting'].quantile(0.95))].  The quantile is the
    exact one here; the [float64] that pandas interpolates can fall just
    below a whole number that the exact quantile reaches, and [int] then
    gives the number before it. *)
Definition slider_value (df : DataFrame) : outcome Z :=
  py_int (series_quantile 95 100 (DaysWaiting <$> df)).

Record Figures : Type := mkFigures {
  no_show_fig : list (string * nat);
  age_gender_fig : list AgeGender.stats;
  waiting_time_fig : DataFrame;
  medical_conditions_fig : list Condition.stats
}.

(** The callback: its four figures, built in the order of the source from
    the filtered view; an error of the pie chart, which is built first, is
    the error of the callback. *)
Definition update_charts (observed : bool) (df : DataFrame)
    (age_group gender : string) (max_waiting_days : Z) : outcome Figures :=
  let filtered_df := filtered_df df age_group gender max_waiting_days in
  no_show_fig ← create_no_show_overview_chart filtered_df;
  let age_gender_fig := create_age_gender_analysis observed filtered_df in
  let waiting_time_fig := create_waiting_time_analysis filtered_df in
  let medical_conditions_fig := create_medical_conditions_analysis filtered_df in
  mret (mkFigures no_show_fig age_gender_fig waiting_time_fig medical_conditions_fig).

(** ** [analyze_medical_appointments] (demo_insights.py)

    The report of the demo script, computed from the table of the file as it
    is read: nothing is cleaned, a missing cell stays missing and the
    reductions skip it.  The values are those that the script prints, before
    they are formatted.  The counts of distinct patients and neighbourhoods,
    the tables by gender, by age group and by neighbourhood and the largest
    and the median waiting time, which are printed from guarded loops and
    plain reductions, are left out.

    [tz_aware] tells whether the time stamps of the file carry a time zone,
    as those of the dataset do (a trailing Z).  A date column with such a
    time stamp is parsed as zone-aware, one without any value as zone-naive,
    and pandas refuses to subtract the one from the other. *)

(** [Series[label]] on the result of a [groupby]: the entry of that label,
    [KeyError] when no group has it. *)
Definition lookup_label {A : Type} (label : Z) (s : list (Z * A)) : outcome A :=
  match list_find (λ p, p.1 = label) s with
  | Some (_, p) => Done p.2
  | None => Fail KeyError
  end.

(** [df.groupby(column)['NoShow_Binary'].mean() * 100] on the table of the
    file; rows without a value in the column belong to no group. *)
Definition raw_flag_rates (column : Csv.row → option Z) (df : list Csv.row)
    : list (Z * Np.float) :=
  (λ k, (k, Np.mul (series_mean (Derived.NoShow_Binary
                                   <$> filter (λ c, column c = Some k) df))
                   (Np.of_Z 100)))
  <$> merge_sort Z.le (remove_dups (omap column df)).

(** [Series.sum()] of a column of the file: an [int64], or a [float64] when
    cells are missing (they are skipped). *)
Definition raw_sum (column : Csv.row → option Z) (df : list Csv.row) : pynum :=
  let total := foldr Z.add 0 (omap column df) in
  if decide (Forall (λ c, is_Some (column c)) df) then NpInt64 (wrap64 total)
  else NpFloat64 (Np.of_Z total).

Definition demo_conditions : list (string * (Csv.row → option Z)) :=
  [("Hipertension", Csv.Hipertension); ("Diabetes", Csv.Diabetes);
   ("Alcoholism", Csv.Alcoholism)].

Record Report : Type := mkReport {
  report_total : nat;
  report_date_range : Z * Z;
  report_no_show_rate : pynum;
  report_show_rate : pynum;
  report_avg_age : Np.float;
  report_avg_waiting : Np.float;
  (** name, rate with the condition, rate without, patients with it *)
  report_conditions : list (string * Np.float * Np.float * pynum);
  report_sms : Np.float * Np.float;
  report_scholarship : Np.float * Np.float;
  report_same_day : nat;
  report_same_day_share : pynum;
  report_same_day_no_show : pynum
}.

Definition analyze_medical_appointments (tz_aware : bool) (df : list Csv.row)
    : outcome Report :=
  (* [df['AppointmentDay'] - df['ScheduledDay']] *)
  _ ← (if tz_aware
          && bool_decide (¬ (omap Csv.ScheduledDay df = []
                             ↔ omap Csv.AppointmentDay df = []))
       then Fail TypeError else Done ());
  let NoShow_Binary := Derived.NoShow_Binary <$> df in
  (* the date range: [min()] of no date at all is NaT, which has no
     [strftime] *)
  date_range ←
    match omap Csv.AppointmentDay df with
    | [] => Fail ValueError
    | t :: ts => Done (foldr Z.min t ts, foldr Z.max t ts)
    end;
  q ← lift (py_truediv (series_sum NoShow_Binary) (PyInt (Z.of_nat (length df))));
  no_show_rate ← lift (py_mul q (PyInt 100));
  show_rate ← lift (py_sub (PyInt 100) no_show_rate);
  let avg_age := series_mean (omap Csv.Age df) in
  let avg_waiting := series_mean (omap Derived.DaysWaiting df) in
  let conditions :=
    (λ condition : string * (Csv.row → option Z),
       (condition.1,
        Np.mul (series_mean (Derived.NoShow_Binary
                  <$> filter (λ c, condition.2 c = Some 1) df)) (Np.of_Z 100),
        Np.mul (series_mean (Derived.NoShow_Binary
                  <$> filter (λ c, condition.2 c = Some 0) df)) (Np.of_Z 100),
        raw_sum condition.2 df))
    <$> demo_conditions in
  let sms_impact := raw_flag_rates Csv.SMS_received df in
  let scholarship_impact := raw_flag_rates Csv.Scholarship df in
  no_sms ← lookup_label 0 sms_impact;
  with_sms ← lookup_label 1 sms_impact;
  no_scholarship ← lookup_label 0 scholarship_impact;
  with_scholarship ← lookup_label 1 scholarship_impact;
  let same_day := filter (λ c, Derived.DaysWaiting c = Some 0) df in
  q ← lift (py_truediv (series_sum (Derived.NoShow_Binary <$> same_day))
                       (PyInt (Z.of_nat (length same_day))));
  same_day_no_show ← lift (py_mul q (PyInt 100));
  q ← lift (py_truediv (PyInt (Z.of_nat (length same_day)))
                       (PyInt (Z.of_nat (length df))));
  same_day_share ← lift (py_mul q (PyInt 100));
  mret (mkReport (length df) date_range no_show_rate show_rate avg_age
          avg_waiting conditions (no_sms, with_sms)
          (no_scholarship, with_scholarship) (length same_day) same_day_share
          same_day_no_show).

(** ** Specification predicates *)

(** A row of the file that lacks one of its fourteen fields. *)
Definition missing_field (c : Csv.row) : Prop :=
  Csv.PatientId c = None ∨ Csv.AppointmentID c = None ∨ Csv.Gender c = None ∨
  Csv.ScheduledDay c = None ∨ Csv.AppointmentDay c = None ∨ Csv.Age c = None ∨
  Csv.Neighbourhood c = None ∨ Csv.Scholarship c = None ∨
  Csv.Hipertension c = None ∨ Csv.Diabetes c = None ∨ Csv.Alcoholism c = None ∨
  Csv.Handcap c = None ∨ Csv.SMS_received c = None ∨ Csv.No_show c = None.

Definition negative_wait (c : Csv.row) : Prop :=
  ∃ d, Derived.DaysWaiting c = Some d ∧ d < 0.

Definition unrealistic_age (c : Csv.row) : Prop :=
  ∃ a, Csv.Age c = Some a ∧ (a < 0 ∨ 120 < a).

Definition valid_row (r : Row) : Prop :=
  0 ≤ DaysWaiting r ∧ 0 ≤ Age r ≤ 120.

(** The three cleaning steps of [load_and_clean_data], on one row. *)
Definition clean_row (c : Csv.row) : option Row :=
  r ← dropna c;
  if decide (0 ≤ DaysWaiting r ∧ 0 ≤ Age r ∧ Age r ≤ 120) then Some r else None.

(** The row of [day_stats] for one day name: its number of appointments, its
    number of no-shows and its no-show percentage. *)
Definition day_row (df : DataFrame) (d : string) : Day.stats :=
  let group := filter (λ r, DayOfWeekName r = d) df in
  Day.mk d (length group) (series_sum (NoShow_Binary <$> group))
         (Np.mul (series_mean (NoShow_Binary <$> group)) (Np.of_Z 100)).

(** The position of a day name in [day_order]. *)
Definition day_index (d : string) : nat :=
  default 0%nat (category_code day_order d).

(** The category code of the row [a] of a table whose day names are read by
    [name], and the row of the day [d] paired with its code. *)
Definition day_code {A : Type} (name : A → string) (a : A) : option nat :=
  category_code day_order (name a).
Definition coded_row {A : Type} (row : string → A) (d : string) : nat * A :=
  (day_index d, row d).

(** The row of [neighborhood_stats] for one neighbourhood: its number of
    appointments and its no-show percentage. *)
Definition neighborhood_row (df : DataFrame) (name : string) : Nbh.stats :=
  let group := filter (λ r, Neighbourhood r = name) df in
  Nbh.mk name (length group)
         (Np.mul (series_mean (NoShow_Binary <$> group)) (Np.of_Z 100)).

(** The outcome of a record is a no-show: the [No-show] column of the
    dataset holds "Yes" for a patient who did not attend and "No" for one
    who did. *)
Definition no_show (c : Csv.row) : Prop := Csv.No_show c = Some "Yes".

#[global] Instance no_show_dec (c : Csv.row) : Decision (no_show c).
Proof. unfold no_show. apply _. Defined.

(** A string of ASCII characters only, [str.isascii]. *)
Fixpoint isascii (s : string) : bool :=
  match s with
  | EmptyString => true
  | String c s' => bool_decide (nat_of_ascii c < 128)%nat && isascii s'
  end.

(** A string with [f] applied to each of its characters. *)
Fixpoint map_chars (f : ascii → ascii) (s : string) : string :=
  match s with
  | EmptyString => EmptyString
  | String c s' => String (f c) (map_chars f s')
  end.

(** A string of white space only. *)
Fixpoint all_space (s : string) : bool :=
  match s with
  | EmptyString => true
  | String c s' => Str.isspace c && all_space s'
  end.

(** A booking made within the day (24 hours) that ends at the time stamp of
    the appointment. *)
Definition booked_within_a_day (c : Csv.row) : Prop :=
  match Csv.ScheduledDay c, Csv.AppointmentDay c with
  | Some s, Some a => s ≤ a ∧ a < s + ns_per_day
  | _, _ => False
  end.

#[global] Instance booked_within_a_day_dec (c : Csv.row) :
  Decision (booked_within_a_day c).
Proof.
  unfold booked_within_a_day.
  destruct (Csv.ScheduledDay c), (Csv.AppointmentDay c); apply _.
Defined.

(** ** Sample tables *)

(** 2016-04-29T00:00:00Z, a Friday. *)
Definition t0 : Z := 1461888000 * 10 ^ 9.

(** A row of the file with every field present. *)
Definition sample_row (age scheduled appointment : Z)
    (neighbourhood gender no_show : string) : Csv.row :=
  Csv.mk (Some 29872499824296) (Some 5642903) (Some gender) (Some scheduled)
         (Some appointment) (Some age) (Some neighbourhood) (Some 0) (Some 1)
         (Some 0) (Some 0) (Some 0) (Some 0) (Some no_show).

Definition sample_csv : list Csv.row :=
  [sample_row 62 t0 (t0 + 4 * ns_per_day) "JARDIM DA PENHA" "F" "No";
   sample_row 8 (t0 + 1) t0 "MATA DA PRAIA" "M" "Yes";
   sample_row 30 t0 (t0 + ns_per_day) " mata da praia" "M" "Yes"].

(** One appointment, on Tuesday 2016-05-03, booked four days ahead. *)
Definition tuesday_only : list Csv.row :=
  [sample_row 62 t0 (t0 + 4 * ns_per_day) "JARDIM DA PENHA" "F" "No"].

(** Fifty, thirty and ten appointments in three neighbourhoods. *)
Definition three_neighbourhoods : DataFrame :=
  load_and_clean_data
    (replicate 10 (sample_row 40 t0 t0 "centro" "F" "No")
     ++ replicate 50 (sample_row 40 t0 t0 "maria ortiz" "F" "Yes")
     ++ replicate 30 (sample_row 40 t0 t0 "ANDORINHAS" "M" "No")).

(** Twenty-one appointments, booked 0, 1, ..., 20 days ahead. *)
Definition waiting_rows : DataFrame :=
  load_and_clean_data
    ((λ d, sample_row 40 t0 (t0 + d * ns_per_day) "CENTRO" "F" "No") <$> seqZ 0 21).

(** Four complete rows with every combination of the SMS and the scholarship
    flag that the report looks up. *)
Definition demo_csv : list Csv.row :=
  [Csv.mk (Some 1) (Some 11) (Some "F") (Some t0) (Some (t0 + 2 * ns_per_day))
          (Some 34) (Some "CENTRO") (Some 0) (Some 0) (Some 0) (Some 0) (Some 0)
          (Some 0) (Some "No");
   Csv.mk (Some 2) (Some 12) (Some "M") (Some t0) (Some t0)
          (Some 7) (Some "CENTRO") (Some 1) (Some 0) (Some 0) (Some 0) (Some 0)
          (Some 1) (Some "Yes");
   Csv.mk (Some 3) (Some 13) (Some "F") (Some t0) (Some (t0 + 9 * ns_per_day))
          (Some 61) (Some "ITARARE") (Some 0) (Some 1) (Some 1) (Some 0) (Some 0)
          (Some 1) (Some "No");
   Csv.mk (Some 4) (Some 14) (Some "F") (Some (t0 + 5)) (Some (t0 + ns_per_day))
          (Some 45) (Some "ITARARE") (Some 1) (Some 0) (Some 0) (Some 0) (Some 0)
          (Some 0) (Some "No")].

(** * Properties *)

(** ** Cleaning *)

(** What a row that survives [dropna] says about the row of the file. *)
Lemma dropna_Some c r :
  dropna c = Some r →
  Csv.Age c = Some (Age r) ∧
  Csv.Gender c = Some (Gender r) ∧
  Csv.No_show c = Some (No_show r) ∧
  Derived.Neighbourhood c = Some (Neighbourhood r) ∧
  Derived.DaysWaiting c = Some (DaysWaiting r) ∧
  Derived.DayOfWeek c = Some (DayOfWeek r) ∧
  Derived.DayOfWeekName c = Some (DayOfWeekName r) ∧
  Derived.AgeGroup c = Some (AgeGroup r) ∧
  Derived.NoShow_Binary c = NoShow_Binary r.
Proof.
  unfold dropna. intros H.
  repeat match type of H with
         | mbind _ ?o = Some _ => destruct o eqn:?; simpl in H; [|discriminate]
         end.
  injection H as <-. simpl. auto 10.
Qed.

Lemma dropna_None c :
  missing_field c → dropna c = None.
Proof.
  unfold missing_field, dropna, Derived.Neighbourhood.
  intros H.
  repeat match goal with
         | |- mbind _ ?o = None => destruct o eqn:?; simpl; [|reflexivity]
         end.
  repeat destruct H as [H|H]; simplify_eq.
  destruct (Csv.Neighbourhood c); simplify_eq.
Qed.

Lemma load_and_clean_data_omap csv :
  load_and_clean_data csv = omap clean_row csv.
Proof.
  unfold load_and_clean_data.
  induction csv as [|c csv IH]; [reflexivity|].
  simpl. unfold clean_row at 1. destruct (dropna c) as [r|]; simpl; [|exact IH].
  rewrite filter_cons.
  destruct (decide (0 ≤ DaysWaiting r)) as [Hd|Hd].
  - rewrite filter_cons.
    destruct (decide (0 ≤ Age r ∧ Age r ≤ 120)) as [Ha|Ha].
    + rewrite decide_True by tauto. f_equal. exact IH.
    + rewrite decide_False by tauto. exact IH.
  - rewrite decide_False by tauto. exact IH.
Qed.

Lemma elem_of_load_and_clean_data csv r :
  r ∈ load_and_clean_data csv ↔
  (∃ c, c ∈ csv ∧ dropna c = Some r) ∧ valid_row r.
Proof.
  unfold load_and_clean_data, valid_row.
  rewrite !list_elem_of_filter, list_elem_of_omap. tauto.
Qed.

Lemma clean_row_invalid c :
  missing_field c ∨ negative_wait c ∨ unrealistic_age c → clean_row c = None.
Proof.
  unfold clean_row. intros [H|H].
  - by rewrite dropna_None.
  - destruct (dropna c) as [r|] eqn:Hr; [|reflexivity]. simpl.
    apply dropna_Some in Hr as (Ha & _ & _ & _ & Hd & _).
    apply decide_False.
    destruct H as [(d & Hd' & ?)|(a & Ha' & ?)]; simplify_eq; lia.
Qed.

(** C1: every row of the table returned by [load_and_clean_data] has
    [DaysWaiting >= 0] and [0 <= Age <= 120]; a row of the file with a
    missing field, a negative [DaysWaiting] or an [Age] outside [0,120] is
    dropped: the result is the same as without that row. *)
Theorem load_and_clean_data_valid (csv : list Csv.row) :
  Forall valid_row (load_and_clean_data csv) ∧
  ∀ l1 c l2,
    csv = l1 ++ c :: l2 →
    missing_field c ∨ negative_wait c ∨ unrealistic_age c →
    load_and_clean_data csv = load_and_clean_data (l1 ++ l2).
Proof.
  split.
  - apply list.Forall_forall. intros r Hr.
    by apply elem_of_load_and_clean_data in Hr as [_ ?].
  - intros l1 c l2 -> Hc.
    rewrite !load_and_clean_data_omap, !omap_app. simpl.
    by rewrite (clean_row_invalid c Hc).
Qed.

(** The second sample row is booked one nanosecond after its appointment. *)
Lemma load_and_clean_data_valid_witness :
  load_and_clean_data sample_csv =
  load_and_clean_data
    [sample_row 62 t0 (t0 + 4 * ns_per_day) "JARDIM DA PENHA" "F" "No";
     sample_row 30 t0 (t0 + ns_per_day) " mata da praia" "M" "Yes"].
Proof.
  apply (proj2 (load_and_clean_data_valid sample_csv)
           [sample_row 62 t0 (t0 + 4 * ns_per_day) "JARDIM DA PENHA" "F" "No"]
           (sample_row 8 (t0 + 1) t0 "MATA DA PRAIA" "M" "Yes")
           [sample_row 30 t0 (t0 + ns_per_day) " mata da praia" "M" "Yes"]).
  - reflexivity.
  - right. left. exists (-1). split; [reflexivity | lia].
Defined.

(** ** Age groups *)

(** The label that [pd.cut] gives to each age. *)
Lemma cut_age_bins (a : Z) :
  cut age_bins age_labels a =
    if decide (a < 0) then None
    else if decide (a < 18) then Some "Children (0-17)"
    else if decide (a < 36) then Some "Young Adults (18-35)"
    else if decide (a < 56) then Some "Middle-aged (36-55)"
    else if decide (a < 120) then Some "Seniors (56+)"
    else None.
Proof.
  unfold cut, age_bins, age_labels. simpl.
  repeat (case_decide; simpl; try lia; try reflexivity).
Qed.

(** On [0, 120) the binning is total, and the buckets are [0,18), [18,36),
    [36,56) and [56,120). *)
Lemma age_group_below_120 (a : Z) :
  0 ≤ a < 120 →
  ∃ label, cut age_bins age_labels a = Some label ∧ label ∈ age_labels ∧
    (label = "Children (0-17)" ↔ 0 ≤ a < 18) ∧
    (label = "Young Adults (18-35)" ↔ 18 ≤ a < 36) ∧
    (label = "Middle-aged (36-55)" ↔ 36 ≤ a < 56) ∧
    (label = "Seniors (56+)" ↔ 56 ≤ a < 120).
Proof.
  intros [Hlo Hhi]. rewrite cut_age_bins. unfold age_labels.
  repeat case_decide; try lia;
    (eexists; split; [reflexivity|]; split; [set_solver|];
     repeat split; intros; try lia; try discriminate; try reflexivity).
Qed.

(** C2 (at the failing input): age 120, which the age filter of
    [load_and_clean_data] accepts, is in no bucket: [pd.cut] with
    [right=False] closes the last bin at 120 exclusive.  The row gets no
    [AgeGroup] and [dropna] removes it, while the same row with age 119 is
    kept as a senior. *)
Theorem age_group_at_120 :
  cut age_bins age_labels 120 = None ∧
  Derived.AgeGroup (sample_row 120 t0 t0 "CENTRO" "F" "No") = None ∧
  load_and_clean_data [sample_row 120 t0 t0 "CENTRO" "F" "No"] = [] ∧
  AgeGroup <$> load_and_clean_data [sample_row 119 t0 t0 "CENTRO" "F" "No"]
    = ["Seniors (56+)"].
Proof. repeat split; vm_compute; reflexivity. Qed.

(** ** The no-show flag *)

(** The flag of a record of the file, cleaned or not. *)
Lemma NoShow_Binary_of_outcome (c : Csv.row) :
  (no_show c → Derived.NoShow_Binary c = 1) ∧
  (¬ no_show c → Derived.NoShow_Binary c = 0).
Proof.
  unfold Derived.NoShow_Binary, no_show. case_decide; split; intros H'; done.
Qed.

(** The flags of a table add up to its number of no-shows. *)
Lemma NoShow_Binary_sum (df : list Csv.row) :
  foldr Z.add 0 (Derived.NoShow_Binary <$> df)
  = Z.of_nat (length (filter no_show df)).
Proof.
  induction df as [|c df IH]; [done|].
  rewrite fmap_cons, filter_cons. simpl foldr. rewrite IH.
  destruct (NoShow_Binary_of_outcome c) as [Hyes Hno].
  destruct (decide (no_show c)) as [Hc|Hc].
  - rewrite (Hyes Hc), length_cons. lia.
  - rewrite (Hno Hc). lia.
Qed.

Lemma NoShow_Binary_of_label (csv : list Csv.row) (r : Row) :
  r ∈ load_and_clean_data csv →
  NoShow_Binary r = if decide (No_show r = "Yes") then 1 else 0.
Proof.
  intros [(c & _ & Hc) _]%elem_of_load_and_clean_data.
  apply dropna_Some in Hc as (_ & _ & Hn & _ & _ & _ & _ & _ & <-).
  unfold Derived.NoShow_Binary. rewrite Hn.
  repeat case_decide; congruence.
Qed.

(** C4: for every record of the file, cleaned or not, the flag is 1 when
    the outcome of the record is a no-show (the [No-show] column says "Yes")
    and 0 otherwise, whether the cell says "No", another text or nothing.
    The cleaning keeps the flag of the record: in the cleaned table the flag
    is 1 on the rows whose [No-show] cell is "Yes" and 0 on every other row.
    The flags of any table of records therefore add up to its number of
    no-shows. *)
Theorem NoShow_Binary_spec (csv : list Csv.row) :
  (∀ c, (no_show c → Derived.NoShow_Binary c = 1) ∧
        (¬ no_show c → Derived.NoShow_Binary c = 0)) ∧
  (∀ c r, dropna c = Some r →
          NoShow_Binary r = Derived.NoShow_Binary c ∧
          (No_show r = "Yes" ↔ no_show c)) ∧
  Forall (λ r, NoShow_Binary r = if decide (No_show r = "Yes") then 1 else 0)
         (load_and_clean_data csv) ∧
  foldr Z.add 0 (Derived.NoShow_Binary <$> csv)
  = Z.of_nat (length (filter no_show csv)).
Proof.
  split; [apply NoShow_Binary_of_outcome|].
  split.
  { intros c r Hc.
    apply dropna_Some in Hc as (_ & _ & Hn & _ & _ & _ & _ & _ & <-).
    split; [done|]. unfold no_show. rewrite Hn.
    split; [by intros -> | by intros [= ->]]. }
  split; [|apply NoShow_Binary_sum].
  apply list.Forall_forall. intros r Hr.
  by apply (NoShow_Binary_of_label csv).
Qed.

(** ** Summary statistics *)

Lemma wrap64_small (z : Z) : - 2 ^ 63 ≤ z < 2 ^ 63 → wrap64 z = z.
Proof.
  intros Hz. unfold wrap64.
  change (2 ^ 64) with 18446744073709551616.
  change (2 ^ 63) with 9223372036854775808 in *.
  rewrite Z.mod_small; lia.
Qed.

(** The flags of a table whose flag column holds 0 and 1 only add up to a
    count between 0 and the number of rows. *)
Lemma flag_sum_bounds (df : DataFrame) :
  Forall (λ r, NoShow_Binary r = 0 ∨ NoShow_Binary r = 1) df →
  0 ≤ foldr Z.add 0 (NoShow_Binary <$> df) ≤ Z.of_nat (length df).
Proof.
  induction df as [|r df IH]; intros Hdf.
  - simpl. lia.
  - apply list.Forall_cons in Hdf as [Hr Hdf]. specialize (IH Hdf).
    rewrite fmap_cons, length_cons, Nat2Z.inj_succ. cbn [foldr].
    destruct Hr as [-> | ->]; lia.
Qed.

Lemma NoShow_Binary_flag (csv : list Csv.row) :
  Forall (λ r, NoShow_Binary r = 0 ∨ NoShow_Binary r = 1)
         (load_and_clean_data csv).
Proof.
  apply list.Forall_forall. intros r Hr.
  rewrite (NoShow_Binary_of_label csv r Hr). case_decide; auto.
Qed.

(** No step of [calculate_summary_statistics] can raise: each division has a
    numpy scalar as its dividend. *)
Lemma calculate_summary_statistics_Ok (df : DataFrame) :
  let n := Z.of_nat (length df) in
  let rate (column : Row → Z) :=
    NpFloat64 (Np.mul (Np.div (Np.of_Z (wrap64 (foldr Z.add 0 (column <$> df))))
                              (Np.of_Z n))
                      (Np.of_Z 100)) in
  calculate_summary_statistics df =
    Ok (mkSummary
          (PyInt n)
          (NpFloat64
             (Np.mul (Np.div (Np.of_Z (wrap64 (n - wrap64 (foldr Z.add 0 (NoShow_Binary <$> df)))))
                             (Np.of_Z n))
                     (Np.of_Z 100)))
          (rate NoShow_Binary)
          (series_mean (Age <$> df))
          (series_mean (DaysWaiting <$> df))
          (list_to_set_disj (Gender <$> df))
          [("Hipertension", rate Hipertension); ("Diabetes", rate Diabetes);
           ("Alcoholism", rate Alcoholism)]).
Proof. reflexivity. Qed.

Lemma Qzero_inject_Z (z : Z) : z ≠ 0 → Np.Qzero (inject_Z z) = false.
Proof. intros Hz. unfold Np.Qzero. simpl. by apply bool_decide_eq_false. Qed.

(** C3: on a non-empty cleaned table the show rate and the no-show rate are
    finite and add up to 100.  (The rates are exact rationals here; the
    rounding of [float64] is what the claim's tolerance allows for.  The
    length bound says that the row count is an [int64].) *)
Theorem show_rate_plus_no_show_rate (csv : list Csv.row) :
  let df := load_and_clean_data csv in
  df ≠ [] →
  Z.of_nat (length df) < 2 ^ 63 →
  ∃ s a b,
    calculate_summary_statistics df = Ok s ∧
    show_rate s = NpFloat64 (Np.fin a) ∧
    no_show_rate s = NpFloat64 (Np.fin b) ∧
    (a + b == 100)%Q.
Proof.
  intros df Hne Hlen.
  pose proof (flag_sum_bounds df (NoShow_Binary_flag csv)) as Hsum.
  assert (Hn : Z.of_nat (length df) ≠ 0) by (destruct df; [done | simpl; lia]).
  rewrite calculate_summary_statistics_Ok. simpl.
  set (n := Z.of_nat (length df)) in *.
  set (k := foldr Z.add 0 (NoShow_Binary <$> df)) in *.
  rewrite (wrap64_small k) by lia.
  rewrite (wrap64_small (n - k)) by lia.
  unfold Np.div, Np.of_Z. rewrite (Qzero_inject_Z n Hn). simpl.
  do 3 eexists. repeat split.
  unfold Zminus. rewrite inject_Z_plus, inject_Z_opp.
  field. intros H. apply Hn. unfold Qeq in H. simpl in H. lia.
Qed.

Lemma show_rate_plus_no_show_rate_witness :
  ∃ s a b,
    calculate_summary_statistics (load_and_clean_data sample_csv) = Ok s ∧
    show_rate s = NpFloat64 (Np.fin a) ∧
    no_show_rate s = NpFloat64 (Np.fin b) ∧
    (a + b == 100)%Q.
Proof.
  apply (show_rate_plus_no_show_rate sample_csv).
  - vm_compute. discriminate.
  - vm_compute. reflexivity.
Defined.



(** ** Filter reconciliation *)

Lemma filter_Forall_nil {A : Type} (P : A → Prop) `{!∀ x, Decision (P x)}
    (l : list A) :
  Forall (λ x, ¬ P x) l → filter P l = [].
Proof.
  induction l as [|x l IH]; intros Hl; [reflexivity|].
  apply list.Forall_cons in Hl as [Hx Hl].
  rewrite filter_cons_False by done. by apply IH.
Qed.

Lemma filter_Forall_id {A : Type} (P : A → Prop) `{!∀ x, Decision (P x)}
    (l : list A) :
  Forall P l → filter P l = l.
Proof.
  induction l as [|x l IH]; intros Hl; [reflexivity|].
  apply list.Forall_cons in Hl as [Hx Hl].
  rewrite filter_cons_True by done. by rewrite IH.
Qed.

(** C6: the view keeps, in table order, exactly the rows that pass the
    age-group selector unless it is "all", the gender selector unless it is
    "all", and whose [DaysWaiting] is at most the threshold; with both
    selectors at "all" and a threshold that no row exceeds, the view is the
    whole table. *)
Theorem filtered_df_spec (df : DataFrame) (age_group gender : string)
    (max_waiting_days : Z) :
  filtered_df df age_group gender max_waiting_days =
    filter (λ r, (age_group = "all" ∨ AgeGroup r = age_group) ∧
                 (gender = "all" ∨ Gender r = gender) ∧
                 DaysWaiting r ≤ max_waiting_days) df
  ∧ (Forall (λ r, DaysWaiting r ≤ max_waiting_days) df →
     filtered_df df "all" "all" max_waiting_days = df).
Proof.
  split.
  - unfold filtered_df.
    destruct (decide (age_group ≠ "all")) as [Ha|Ha];
      destruct (decide (gender ≠ "all")) as [Hg|Hg];
      lazy zeta iota beta;
      try apply dec_stable in Ha; try apply dec_stable in Hg;
      rewrite ?(list_filter_filter (λ r, Gender r = gender)
                                   (λ r, AgeGroup r = age_group));
      rewrite ?(list_filter_filter (λ r, DaysWaiting r ≤ max_waiting_days));
      apply list_filter_iff; intros r; intuition.
  - intros Hmax. unfold filtered_df.
    rewrite !decide_False by (intros H; by apply H).
    lazy zeta iota beta. by apply filter_Forall_id.
Qed.

Lemma filtered_df_spec_witness :
  filtered_df (load_and_clean_data sample_csv) "all" "all" 4 =
  load_and_clean_data sample_csv.
Proof.
  apply (proj2 (filtered_df_spec (load_and_clean_data sample_csv) "all" "all" 4)).
  vm_compute. repeat constructor; discriminate.
Defined.

(** ** Medical conditions *)

Lemma condition_rate_empty (column : Row → Z) (v : Z) (df : DataFrame) :
  filter (λ r, column r = v) df = [] → condition_rate column v df = Np.nan.
Proof. unfold condition_rate. by intros ->. Qed.

Lemma condition_rate_nonempty (column : Row → Z) (v : Z) (df : DataFrame) :
  filter (λ r, column r = v) df ≠ [] →
  ∃ q, condition_rate column v df = Np.fin q.
Proof.
  unfold condition_rate. intros Hne.
  destruct (filter (λ r, column r = v) df) as [|r g]; [done|].
  simpl. by eexists.
Qed.

(** The table of the medical-conditions figure has, for each of the four
    conditions, a "With Condition" row for the patients whose flag is 1 and a
    "Without Condition" row for those whose flag is 0; the rate of a row whose
    group has no patient is NaN, and that of any other row is a number. *)
Lemma medical_conditions_table (df : DataFrame) :
  (λ s, (Condition.Condition s, Condition.Group s))
    <$> create_medical_conditions_analysis df
  = [("Hipertension", "With Condition"); ("Hipertension", "Without Condition");
     ("Diabetes", "With Condition"); ("Diabetes", "Without Condition");
     ("Alcoholism", "With Condition"); ("Alcoholism", "Without Condition");
     ("Handcap", "With Condition"); ("Handcap", "Without Condition")]
  ∧ Forall (λ s, ∃ column v,
      (Condition.Condition s, column) ∈ conditions ∧
      (Condition.Group s = "With Condition" ∧ v = 1 ∨
       Condition.Group s = "Without Condition" ∧ v = 0) ∧
      (filter (λ r, column r = v) df = [] →
       Condition.NoShowRate s = Np.nan ∧ Condition.NoShowRate s ≠ Np.fin 0) ∧
      (filter (λ r, column r = v) df ≠ [] →
       ∃ q, Condition.NoShowRate s = Np.fin q))
    (create_medical_conditions_analysis df).
Proof.
  split; [reflexivity|].
  unfold create_medical_conditions_analysis, conditions. simpl.
  repeat (apply List.Forall_cons; [|]); try apply List.Forall_nil; simpl;
    match goal with
    | |- context [condition_rate ?column ?v df] => exists column, v
    end;
    (split; [repeat constructor|]);
    (split; [first [left; split; reflexivity | right; split; reflexivity]|]);
    (split; [intros He; rewrite (condition_rate_empty _ _ _ He); by split
            |apply condition_rate_nonempty]).
Qed.

(** C9: in the table of the medical-conditions figure, the row of a group
    that has no patient (nobody with the condition, or nobody without it)
    carries the rate NaN, not 0. *)
Theorem medical_conditions_empty_group (df : DataFrame) (s : Condition.stats)
    (column : Row → Z) (v : Z) :
  s ∈ create_medical_conditions_analysis df →
  (Condition.Condition s, column) ∈ conditions →
  (Condition.Group s, v) ∈ [("With Condition", 1); ("Without Condition", 0)] →
  filter (λ r, column r = v) df = [] →
  Condition.NoShowRate s = Np.nan ∧ Condition.NoShowRate s ≠ Np.fin 0.
Proof.
  intros Hs Hc Hg He.
  unfold create_medical_conditions_analysis, conditions in *. simpl in Hs.
  repeat (apply elem_of_cons in Hs as [-> | Hs]);
    try (by apply not_elem_of_nil in Hs); simpl in *;
    repeat (apply elem_of_cons in Hc as [Hc | Hc]);
    try (by apply not_elem_of_nil in Hc); simplify_eq;
    repeat (apply elem_of_cons in Hg as [Hg | Hg]);
    try (by apply not_elem_of_nil in Hg); simplify_eq;
    rewrite (condition_rate_empty _ _ _ He); by split.
Qed.

(** Nobody in the sample table has diabetes. *)
Lemma medical_conditions_empty_group_witness :
  let s := Condition.mk "Diabetes" "With Condition" Np.nan in
  s ∈ create_medical_conditions_analysis (load_and_clean_data sample_csv) ∧
  Condition.NoShowRate s = Np.nan ∧ Condition.NoShowRate s ≠ Np.fin 0.
Proof.
  assert (Hs : Condition.mk "Diabetes" "With Condition" Np.nan
               ∈ create_medical_conditions_analysis (load_and_clean_data sample_csv)).
  { vm_compute. do 2 apply list_elem_of_further. apply list_elem_of_here. }
  split; [exact Hs|].
  apply (medical_conditions_empty_group (load_and_clean_data sample_csv) _ Diabetes 1 Hs).
  - do 1 apply list_elem_of_further. apply list_elem_of_here.
  - apply list_elem_of_here.
  - vm_compute. reflexivity.
Defined.

(** ** Waiting-time histogram *)

Lemma StronglySorted_lookup_le (s : list Z) (i j : nat) (a b : Z) :
  StronglySorted Z.le s → s !! i = Some a → s !! j = Some b → (i ≤ j)%nat → a ≤ b.
Proof.
  intros Hs. revert i j.
  induction Hs as [|x s Hs IH Hx]; intros i j Hi Hj Hij; [done|].
  destruct i as [|i], j as [|j]; simpl in *; simplify_eq; try lia.
  - rewrite List.Forall_forall in Hx. apply Hx.
    apply list_elem_of_In, list_elem_of_lookup. eauto.
  - apply (IH i j); auto with lia.
Qed.

Lemma length_filter_fmap {A B : Type} (f : A → B) (P : B → Prop) (Q : A → Prop)
    `{!∀ y, Decision (P y)} `{!∀ x, Decision (Q x)} (l : list A) :
  (∀ x, Q x ↔ P (f x)) →
  length (filter Q l) = length (filter P (f <$> l)).
Proof.
  intros HQ. induction l as [|x l IH]; [reflexivity|].
  rewrite fmap_cons, !filter_cons.
  destruct (decide (P (f x))) as [HP|HP].
  - rewrite decide_True by (by apply HQ). simpl. by rewrite IH.
  - rewrite decide_False by (by rewrite HQ). exact IH.
Qed.

Lemma length_filter_take {A : Type} (P : A → Prop) `{!∀ x, Decision (P x)}
    (k : nat) (l : list A) :
  Forall P (take k l) → (k ≤ length l)%nat → (k ≤ length (filter P l))%nat.
Proof.
  intros Hk Hlen.
  rewrite <- (take_drop k l), list.filter_app, length_app at 1.
  rewrite (filter_Forall_id P (take k l) Hk), length_take. lia.
Qed.

(** The interpolation weight of the quantile is a fraction in [0, 1). *)
Lemma quantile_weight (h : Z) :
  (0 <= inject_Z (h mod 100) / inject_Z 100 <= 1)%Q.
Proof.
  pose proof (Z.mod_pos_bound h 100 ltac:(lia)) as Hm.
  unfold Qle, Qdiv, Qmult, Qinv, inject_Z. simpl. lia.
Qed.

(** The 95% quantile of a non-empty column lies between two neighbours of the
    sorted column: the value at position [lo = floor(0.95 (n - 1))] and the
    next one (the same one at the end of the column). *)
Lemma series_quantile_95 (l : list Z) :
  l ≠ [] →
  let s := merge_sort Z.le l in
  let lo := Z.to_nat ((Z.of_nat (length l) - 1) * 95 / 100) in
  ∃ q a b,
    series_quantile 95 100 l = Np.fin q ∧
    s !! lo = Some a ∧ b = default a (s !! S lo) ∧
    (inject_Z a <= q)%Q ∧ (q <= inject_Z b)%Q.
Proof.
  intros Hne s lo.
  assert (Hlen : length s = length l)
    by (apply Permutation_length, merge_sort_Permutation).
  assert (Hn : (0 < length l)%nat) by (destruct l; [done | simpl; lia]).
  assert (Hlo : (lo < length l)%nat).
  { unfold lo. apply Nat2Z.inj_lt. rewrite Z2Nat.id.
    - apply Z.div_lt_upper_bound; lia.
    - apply Z.div_pos; lia. }
  destruct (lookup_lt_is_Some_2 s lo) as [a Ha]; [lia|].
  set (b := default a (s !! S lo)).
  assert (Hab : a ≤ b).
  { unfold b. destruct (s !! S lo) as [b'|] eqn:Hb; simpl; [|lia].
    eapply (StronglySorted_lookup_le s lo (S lo)); eauto.
    apply (StronglySorted_merge_sort Z.le). }
  pose proof (quantile_weight ((Z.of_nat (length l) - 1) * 95)) as [Hw0 Hw1].
  exists (inject_Z a + inject_Z (b - a) *
            (inject_Z (((Z.of_nat (length l) - 1) * 95) mod 100) / inject_Z 100))%Q,
         a, b.
  split; [|split; [exact Ha|split; [reflexivity|]]].
  - unfold series_quantile. destruct l; [done|].
    fold s. fold lo. rewrite Ha. reflexivity.
  - set (w := (inject_Z (((Z.of_nat (length l) - 1) * 95) mod 100) / inject_Z 100)%Q) in *.
    assert (Hd : (0 <= inject_Z (b - a))%Q)
      by (unfold Qle, inject_Z; simpl; lia).
    assert (Hb : (inject_Z b == inject_Z a + inject_Z (b - a))%Q)
      by (unfold Zminus; rewrite inject_Z_plus, inject_Z_opp; ring).
    split; [nra | rewrite Hb; nra].
Qed.

Lemma create_waiting_time_analysis_nil : create_waiting_time_analysis [] = [].
Proof. reflexivity. Qed.

(** C8: the histogram is drawn from the rows of the table it is given whose
    [DaysWaiting] is at most the 95% quantile [q] of that same table's
    [DaysWaiting] column.  [q] is interpolated between the entries [lo] and
    [lo + 1] of the sorted column, [lo = floor(0.95 (n - 1))], so at least
    [lo + 1] of the [n] rows are kept. *)
Theorem waiting_time_95th_percentile (df : DataFrame) :
  df ≠ [] →
  let column := DaysWaiting <$> df in
  let lo := Z.to_nat ((Z.of_nat (length df) - 1) * 95 / 100) in
  ∃ q a b,
    series_quantile 95 100 column = Np.fin q ∧
    merge_sort Z.le column !! lo = Some a ∧
    b = default a (merge_sort Z.le column !! S lo) ∧
    (inject_Z a <= q)%Q ∧ (q <= inject_Z b)%Q ∧
    (∀ r, r ∈ create_waiting_time_analysis df ↔
          r ∈ df ∧ (inject_Z (DaysWaiting r) <= q)%Q) ∧
    (lo + 1 ≤ length (create_waiting_time_analysis df))%nat.
Proof.
  intros Hne. cbv zeta.
  set (column := DaysWaiting <$> df).
  set (lo := Z.to_nat ((Z.of_nat (length df) - 1) * 95 / 100)).
  assert (Hcol : column ≠ []) by (unfold column; destruct df; done).
  destruct (series_quantile_95 column Hcol) as (q & a & b & Hq & Ha & Hb & Haq & Hqb).
  cbv zeta in Ha, Hb. unfold column in Ha, Hb. rewrite length_fmap in Ha, Hb.
  fold lo in Ha, Hb. subst column.
  exists q, a, b. do 5 (split; [done|]). split.
  - intros r. unfold create_waiting_time_analysis. cbv zeta.
    rewrite Hq, list_elem_of_filter. simpl. rewrite Qle_bool_iff. tauto.
  - unfold create_waiting_time_analysis. cbv zeta. rewrite Hq.
    assert (Hcount :
      length (filter (λ r, Np.le (Np.of_Z (DaysWaiting r)) (Np.fin q) = true) df)
      = length (filter (λ d, Np.le (Np.of_Z d) (Np.fin q) = true)
                       (DaysWaiting <$> df)))
      by (by apply length_filter_fmap).
    rewrite Hcount.
    rewrite <- (merge_sort_Permutation Z.le (DaysWaiting <$> df)).
    assert (Hlen : length (merge_sort Z.le (DaysWaiting <$> df)) = length df).
    { rewrite (Permutation_length (merge_sort_Permutation Z.le _)).
      apply length_fmap. }
    apply length_filter_take.
    + apply Forall_lookup. intros i d [Hd Hi]%lookup_take_Some.
      apply Qle_bool_iff. apply Qle_trans with (inject_Z a); [|done].
      rewrite <- Zle_Qle.
      eapply (StronglySorted_lookup_le _ i lo); eauto with lia.
      apply (StronglySorted_merge_sort Z.le).
    + apply lookup_lt_Some in Ha. lia.
Qed.

Lemma waiting_time_95th_percentile_witness :
  let df := load_and_clean_data sample_csv in
  ∃ q a b,
    series_quantile 95 100 (DaysWaiting <$> df) = Np.fin q ∧
    merge_sort Z.le (DaysWaiting <$> df) !! 0%nat = Some a ∧
    b = default a (merge_sort Z.le (DaysWaiting <$> df) !! 1%nat) ∧
    (inject_Z a <= q)%Q ∧ (q <= inject_Z b)%Q ∧
    (∀ r, r ∈ create_waiting_time_analysis df ↔
          r ∈ df ∧ (inject_Z (DaysWaiting r) <= q)%Q) ∧
    (0 + 1 ≤ length (create_waiting_time_analysis df))%nat.
Proof.
  apply (waiting_time_95th_percentile (load_and_clean_data sample_csv)).
  vm_compute. discriminate.
Defined.

(** The callback hands the filtered view to the histogram, so the threshold
    is that of the view: of base rows waiting 0, 1, ..., 20 days, the view up
    to 10 days has the threshold 9.5 while the base table has 19; the row
    waiting 10 days is in the view and not in the histogram input. *)
Lemma update_charts_threshold_of_view :
  (∃ q, series_quantile 95 100 (DaysWaiting <$> waiting_rows) = Np.fin q ∧
        (q == 19)%Q) ∧
  (∃ q, series_quantile 95 100
          (DaysWaiting <$> filtered_df waiting_rows "all" "all" 10) = Np.fin q ∧
        (q == 19 # 2)%Q) ∧
  DaysWaiting <$> filtered_df waiting_rows "all" "all" 10 = seqZ 0 11 ∧
  DaysWaiting <$> create_waiting_time_analysis
                    (filtered_df waiting_rows "all" "all" 10) = seqZ 0 10.
Proof.
  split; [eexists; split; [vm_compute; reflexivity | reflexivity]|].
  split; [eexists; split; [vm_compute; reflexivity | reflexivity]|].
  split; vm_compute; reflexivity.
Qed.

(** ** Neighbourhoods *)

Section stable_sort.
Context {A : Type} (R : relation A) `{!RelDecision R}.

Lemma insert_sorted_Permutation (x : A) (l : list A) :
  insert_sorted R x l ≡ₚ x :: l.
Proof.
  induction l as [|y l IH]; simpl; [done|].
  case_decide; [done|]. rewrite IH. apply Permutation_swap.
Qed.

Lemma stable_sort_Permutation (l : list A) : stable_sort R l ≡ₚ l.
Proof.
  induction l as [|x l IH]; simpl; [done|].
  by rewrite insert_sorted_Permutation, IH.
Qed.

Context `{!Transitive R, !Total R}.

Lemma insert_sorted_StronglySorted (x : A) (l : list A) :
  StronglySorted R l → StronglySorted R (insert_sorted R x l).
Proof.
  induction 1 as [|y l Hl IH Hy]; simpl.
  - repeat constructor.
  - case_decide as Hxy.
    + constructor; [by constructor|].
      constructor; [done|].
      eapply List.Forall_impl; [|exact Hy]. intros z Hz. by trans y.
    + constructor; [done|].
      rewrite insert_sorted_Permutation. constructor; [|done].
      by destruct (total R x y).
Qed.

Lemma stable_sort_StronglySorted (l : list A) :
  StronglySorted R (stable_sort R l).
Proof.
  induction l as [|x l IH]; simpl; [constructor|].
  by apply insert_sorted_StronglySorted.
Qed.

(** Where no two rows are tied, the order of the table does not matter. *)
Lemma stable_sort_unique (l1 l2 : list A) :
  (∀ x y, x ∈ l1 → y ∈ l1 → R x y → R y x → x = y) →
  l1 ≡ₚ l2 → stable_sort R l1 = stable_sort R l2.
Proof.
  intros Hanti Hperm.
  apply (StronglySorted_unique_strong R);
    try apply stable_sort_StronglySorted.
  - intros x y Hx Hy. apply Hanti.
    + by rewrite stable_sort_Permutation in Hx.
    + by rewrite stable_sort_Permutation, <- Hperm in Hy.
  - by rewrite !stable_sort_Permutation.
Qed.
End stable_sort.

#[global] Instance descending_trans {A : Type} (column : A → nat) :
  Transitive (descending column).
Proof. unfold descending. intros x y z ??. lia. Qed.

#[global] Instance descending_total {A : Type} (column : A → nat) :
  Total (descending column).
Proof. unfold descending. intros x y. lia. Qed.

(** What [nlargest] returns: the longest prefix of at most [n] rows of a
    rearrangement of the table in which the column never increases. *)
Lemma nlargest_spec {A : Type} (n : nat) (column : A → nat) (l : list A) :
  let out := nlargest n column l in
  length out = (n `min` length l)%nat ∧
  StronglySorted (descending column) out ∧
  ∃ rest, out ++ rest ≡ₚ l ∧
          ∀ x y, x ∈ out → y ∈ rest → (column y ≤ column x)%nat.
Proof.
  unfold nlargest. cbv zeta.
  pose proof (stable_sort_StronglySorted (descending column) l) as Hs.
  pose proof (stable_sort_Permutation (descending column) l) as Hp.
  rewrite <- (take_drop n (stable_sort (descending column) l)) in Hs, Hp.
  split; [|split].
  - rewrite length_take. by rewrite (Permutation_length (stable_sort_Permutation _ l)).
  - by apply StronglySorted_app_1_l in Hs.
  - exists (drop n (stable_sort (descending column) l)). split; [done|].
    intros x y Hx Hy.
    by apply (StronglySorted_app_1_elem_of _ _ _ x y Hs).
Qed.

Lemma neighborhood_stats_rows (df : DataFrame) :
  neighborhood_stats df =
  neighborhood_row df <$> merge_sort String.le (remove_dups (Neighbourhood <$> df)).
Proof.
  unfold neighborhood_stats, groupby. by rewrite <- list_fmap_compose.
Qed.

(** One row per neighbourhood that occurs in the table. *)
Lemma neighborhood_stats_Permutation (df : DataFrame) :
  neighborhood_stats df ≡ₚ
  neighborhood_row df <$> remove_dups (Neighbourhood <$> df).
Proof.
  rewrite neighborhood_stats_rows. by rewrite merge_sort_Permutation.
Qed.

Lemma filter_nonempty_elem {A : Type} (P : A → Prop) `{!∀ x, Decision (P x)}
    (l : list A) :
  (0 < length (filter P l))%nat → ∃ x, x ∈ l ∧ P x.
Proof.
  destruct (filter P l) as [|x l'] eqn:Hf; simpl; [lia|]. intros _.
  assert (Hx : x ∈ filter P l) by (rewrite Hf; apply list_elem_of_here).
  apply list_elem_of_filter in Hx as [??]. eauto.
Qed.

(** The scenario of three neighbourhoods with 50, 30 and 10 appointments. *)
Lemma top_two_of_three (df : DataFrame) (a b c : string) :
  NoDup [a; b; c] →
  Forall (λ r, Neighbourhood r ∈ [a; b; c]) df →
  length (filter (λ r, Neighbourhood r = a) df) = 50%nat →
  length (filter (λ r, Neighbourhood r = b) df) = 30%nat →
  length (filter (λ r, Neighbourhood r = c) df) = 10%nat →
  create_neighborhood_analysis df (Some 2%nat) =
    [neighborhood_row df a; neighborhood_row df b].
Proof.
  intros Hnd Hdf Ha Hb Hc.
  assert (Hkeys : merge_sort String.le (remove_dups (Neighbourhood <$> df))
                  ≡ₚ [a; b; c]).
  { apply NoDup_Permutation; [|done|].
    - rewrite merge_sort_Permutation. apply NoDup_remove_dups.
    - intros x. rewrite merge_sort_Permutation, elem_of_remove_dups, list_elem_of_fmap.
      split.
      + intros (r & -> & Hr).
        by apply (proj1 (list.Forall_forall _ _) Hdf).
      + intros Hx.
        assert (Hpos : (0 < length (filter (λ r, Neighbourhood r = x) df))%nat).
        { repeat (apply elem_of_cons in Hx as [-> | Hx]); try lia.
          by apply not_elem_of_nil in Hx. }
        apply filter_nonempty_elem in Hpos as (r & Hr & <-). eauto. }
  assert (Hstats : neighborhood_stats df ≡ₚ neighborhood_row df <$> [a; b; c])
    by (by rewrite neighborhood_stats_rows, Hkeys).
  unfold create_neighborhood_analysis, nlargest. simpl default.
  rewrite (stable_sort_unique (descending Nbh.TotalAppointments)
             (neighborhood_stats df) (neighborhood_row df <$> [a; b; c]));
    [| |exact Hstats].
  - unfold neighborhood_row. cbv zeta. simpl fmap. rewrite Ha, Hb, Hc.
    generalize (filter (λ r, Neighbourhood r = a) df),
               (filter (λ r, Neighbourhood r = b) df),
               (filter (λ r, Neighbourhood r = c) df).
    intros ga gb gc. vm_compute. reflexivity.
  - intros x y Hx Hy. rewrite Hstats in Hx, Hy.
    unfold descending, neighborhood_row. simpl in Hx, Hy.
    repeat (apply elem_of_cons in Hx as [-> | Hx]);
      try (by apply not_elem_of_nil in Hx);
      repeat (apply elem_of_cons in Hy as [-> | Hy]);
      try (by apply not_elem_of_nil in Hy);
      simpl; rewrite ?Ha, ?Hb, ?Hc; intros; (reflexivity || lia).
Qed.

(** C7: the neighbourhood table has one row per neighbourhood of the input,
    with its number of appointments; the figure keeps [top_n] of them (15
    when [top_n] is left out, all of them if there are fewer), ordered by
    descending volume, and no neighbourhood left out has more appointments
    than one that is kept.  With [top_n = 2] and three neighbourhoods of 50,
    30 and 10 appointments the result is the row of the first followed by the
    row of the second. *)
Theorem create_neighborhood_analysis_top_n (df : DataFrame) (top_n : option nat) :
  let stats := neighborhood_stats df in
  let out := create_neighborhood_analysis df top_n in
  stats ≡ₚ neighborhood_row df <$> remove_dups (Neighbourhood <$> df) ∧
  length out = (default 15%nat top_n `min` length stats)%nat ∧
  StronglySorted (descending Nbh.TotalAppointments) out ∧
  (∃ rest, out ++ rest ≡ₚ stats ∧
     ∀ x y, x ∈ out → y ∈ rest →
            (Nbh.TotalAppointments y ≤ Nbh.TotalAppointments x)%nat) ∧
  create_neighborhood_analysis df None = create_neighborhood_analysis df (Some 15%nat) ∧
  ∀ a b c,
    NoDup [a; b; c] →
    Forall (λ r, Neighbourhood r ∈ [a; b; c]) df →
    length (filter (λ r, Neighbourhood r = a) df) = 50%nat →
    length (filter (λ r, Neighbourhood r = b) df) = 30%nat →
    length (filter (λ r, Neighbourhood r = c) df) = 10%nat →
    create_neighborhood_analysis df (Some 2%nat) =
      [neighborhood_row df a; neighborhood_row df b].
Proof.
  cbv zeta. split; [apply neighborhood_stats_Permutation|].
  destruct (nlargest_spec (default 15%nat top_n) Nbh.TotalAppointments
              (neighborhood_stats df)) as (Hlen & Hsorted & Hrest).
  repeat split; try done.
  apply top_two_of_three.
Qed.

Lemma create_neighborhood_analysis_top_n_witness :
  create_neighborhood_analysis three_neighbourhoods (Some 2%nat) =
    [neighborhood_row three_neighbourhoods "Maria Ortiz";
     neighborhood_row three_neighbourhoods "Andorinhas"].
Proof.
  destruct (create_neighborhood_analysis_top_n three_neighbourhoods (Some 2%nat))
    as (_ & _ & _ & _ & _ & Htop).
  apply (Htop "Maria Ortiz" "Andorinhas" "Centro").
  - apply (bool_decide_unpack _). vm_compute. exact I.
  - apply (bool_decide_unpack _). vm_compute. exact I.
  - vm_compute. reflexivity.
  - vm_compute. reflexivity.
  - vm_compute. reflexivity.
Defined.

Example create_neighborhood_analysis_three :
  (λ s, (Nbh.Neighbourhood s, Nbh.TotalAppointments s))
    <$> create_neighborhood_analysis three_neighbourhoods (Some 2%nat)
  = [("Maria Ortiz", 50%nat); ("Andorinhas", 30%nat)] ∧
  (λ s, (Nbh.Neighbourhood s, Nbh.TotalAppointments s))
    <$> neighborhood_stats three_neighbourhoods
  = [("Andorinhas", 30%nat); ("Centro", 10%nat); ("Maria Ortiz", 50%nat)].
Proof. split; vm_compute; reflexivity. Qed.

(** ** Day of week *)

Lemma category_code_None (categories : list string) (v : string) :
  category_code categories v = None ↔ v ∉ categories.
Proof.
  unfold category_code. rewrite fmap_None, list_find_None, list.Forall_forall.
  split.
  - intros H Hv. by apply (H v).
  - intros H x Hx ->. by apply H.
Qed.

Lemma category_code_Some (categories : list string) (v : string) (i : nat) :
  category_code categories v = Some i → categories !! i = Some v.
Proof.
  unfold category_code. intros ([j x] & Hfind & ->)%fmap_Some.
  apply list_find_Some in Hfind as (Hj & -> & _). exact Hj.
Qed.

Lemma day_index_lookup (d : string) :
  d ∈ day_order → day_order !! day_index d = Some d.
Proof.
  intros Hd. unfold day_index.
  destruct (category_code day_order d) as [i|] eqn:Hc.
  - by apply category_code_Some.
  - by apply category_code_None in Hc.
Qed.

#[global] Instance by_code_trans {A : Type} : Transitive (@by_code A).
Proof. unfold by_code. intros x y z ??. lia. Qed.

#[global] Instance by_code_total {A : Type} : Total (@by_code A).
Proof. unfold by_code. intros x y. lia. Qed.

Lemma StronglySorted_filter {A : Type} (R : relation A) (P : A → Prop)
    `{!∀ x, Decision (P x)} (l : list A) :
  StronglySorted R l → StronglySorted R (filter P l).
Proof.
  induction 1 as [|x l Hl IH Hx]; [constructor|].
  rewrite filter_cons. case_decide; [|done].
  constructor; [done|].
  apply list.Forall_forall. intros y [_ Hy]%list_elem_of_filter.
  by apply (proj1 (list.Forall_forall _ _) Hx).
Qed.

Lemma day_order_sorted :
  StronglySorted (λ d1 d2, (day_index d1 ≤ day_index d2)%nat) day_order.
Proof.
  unfold day_order.
  repeat (constructor; [|repeat constructor; vm_compute; lia]). constructor.
Qed.

Lemma day_order_NoDup : NoDup day_order.
Proof. apply (bool_decide_unpack _). vm_compute. exact I. Qed.

Lemma omap_cons {A B : Type} (f : A → option B) (x : A) (l : list A) :
  omap f (x :: l) = match f x with Some y => y :: omap f l | None => omap f l end.
Proof. reflexivity. Qed.

Section sort_values_by_day.
Context {A : Type} (name : A → string) (row : string → A).
Hypothesis name_row : ∀ k, name (row k) = k.

Lemma coded_rows (keys : list string) :
  omap (λ a, (λ c, (c, a)) <$> day_code name a) (row <$> keys)
  = coded_row row <$> filter (λ k, k ∈ day_order) keys.
Proof.
  induction keys as [|k keys IH]; [reflexivity|].
  rewrite fmap_cons, filter_cons, omap_cons.
  unfold day_code at 1. rewrite name_row.
  destruct (category_code day_order k) as [i|] eqn:Hk; simpl.
  - assert (Hin : k ∈ day_order)
      by (apply category_code_Some in Hk; by eapply list_elem_of_lookup_2).
    rewrite decide_True by done. rewrite fmap_cons. f_equal.
    + unfold coded_row, day_index. by rewrite Hk.
    + exact IH.
  - apply category_code_None in Hk. rewrite decide_False by done. exact IH.
Qed.

Lemma uncoded_rows (keys : list string) :
  filter (λ a, day_code name a = None) (row <$> keys)
  = row <$> filter (λ k, k ∉ day_order) keys.
Proof.
  induction keys as [|k keys IH]; [reflexivity|].
  rewrite fmap_cons, !filter_cons.
  destruct (decide (k ∉ day_order)) as [Hk|Hk].
  - rewrite decide_True
      by (unfold day_code; rewrite name_row; by apply category_code_None).
    rewrite fmap_cons. by f_equal.
  - rewrite decide_False
      by (unfold day_code; rewrite name_row; by rewrite category_code_None).
    exact IH.
Qed.

Lemma coded_sorted (keys : list string) :
  StronglySorted by_code (coded_row row <$> filter (λ d, d ∈ keys) day_order).
Proof.
  eapply StronglySorted_fmap;
    [|apply StronglySorted_filter, day_order_sorted].
  intros d1 d2 H. exact H.
Qed.

Lemma coded_inj (d1 d2 : string) :
  d1 ∈ day_order → d2 ∈ day_order →
  by_code (coded_row row d1) (coded_row row d2) →
  by_code (coded_row row d2) (coded_row row d1) → d1 = d2.
Proof.
  unfold by_code, coded_row. simpl. intros H1 H2 ??.
  apply day_index_lookup in H1, H2.
  assert (Heq : day_index d1 = day_index d2) by lia.
  rewrite Heq in H1. congruence.
Qed.

(** Sorting the rows of distinct names by their category code lists the days
    that occur in the order of [day_order]; the names that are no day
    follow. *)
Lemma sort_values_by_day (keys : list string) :
  NoDup keys →
  sort_values (day_code name) (row <$> keys)
  = row <$> (filter (λ d, d ∈ keys) day_order
             ++ filter (λ k, k ∉ day_order) keys).
Proof.
  intros Hnd. unfold sort_values.
  rewrite uncoded_rows, coded_rows, fmap_app. f_equal.
  assert (Hperm : coded_row row <$> filter (λ k, k ∈ day_order) keys
                  ≡ₚ coded_row row <$> filter (λ d, d ∈ keys) day_order).
  { apply fmap_Permutation, NoDup_Permutation.
    - by apply list.NoDup_filter.
    - apply list.NoDup_filter, day_order_NoDup.
    - intros x. rewrite !list_elem_of_filter. tauto. }
  rewrite (StronglySorted_unique_strong by_code
             (merge_sort by_code
                (coded_row row <$> filter (λ k, k ∈ day_order) keys))
             (coded_row row <$> filter (λ d, d ∈ keys) day_order)).
  - rewrite <- list_fmap_compose. by apply list_fmap_ext.
  - intros x1 x2 Hx1 Hx2.
    rewrite merge_sort_Permutation, Hperm in Hx1.
    apply list_elem_of_fmap in Hx1 as (d1 & -> & [_ Hd1]%list_elem_of_filter).
    apply list_elem_of_fmap in Hx2 as (d2 & -> & [_ Hd2]%list_elem_of_filter).
    intros H12 H21. by rewrite (coded_inj d1 d2).
  - apply (StronglySorted_merge_sort by_code).
  - apply coded_sorted.
  - by rewrite merge_sort_Permutation.
Qed.
End sort_values_by_day.

(** The rows of the day-of-week figure, for any table: the days of
    [day_order] that occur in it, in that order, then the names that are no
    day. *)
Lemma create_day_of_week_analysis_rows (df : DataFrame) :
  create_day_of_week_analysis df =
  day_row df <$>
    (filter (λ d, d ∈ DayOfWeekName <$> df) day_order
     ++ filter (λ k, k ∉ day_order)
          (merge_sort String.le (remove_dups (DayOfWeekName <$> df)))).
Proof.
  trans (sort_values (day_code Day.DayOfWeek)
           (day_row df <$> merge_sort String.le (remove_dups (DayOfWeekName <$> df)))).
  { unfold create_day_of_week_analysis, groupby. cbv zeta.
    by rewrite <- !list_fmap_compose. }
  rewrite (sort_values_by_day Day.DayOfWeek (day_row df) (λ _, eq_refl)).
  - do 2 f_equal. apply list_filter_iff. intros d.
    by rewrite merge_sort_Permutation, elem_of_remove_dups.
  - rewrite merge_sort_Permutation. apply NoDup_remove_dups.
Qed.

Lemma dayofweek_name (t : Z) :
  ∃ d, day_names !! dayofweek t = Some d ∧ d ∈ day_order.
Proof.
  unfold dayofweek.
  pose proof (Z.mod_pos_bound (t / ns_per_day + 3) 7 ltac:(lia)) as Hm.
  generalize dependent ((t / ns_per_day + 3) mod 7). intros k Hm.
  assert (Hk : k = 0 ∨ k = 1 ∨ k = 2 ∨ k = 3 ∨ k = 4 ∨ k = 5 ∨ k = 6) by lia.
  unfold day_order.
  repeat destruct Hk as [-> | Hk]; try subst k;
    (eexists; split; [vm_compute; reflexivity | repeat constructor]).
Qed.

Lemma DayOfWeekName_day_order (csv : list Csv.row) (r : Row) :
  r ∈ load_and_clean_data csv → DayOfWeekName r ∈ day_order.
Proof.
  intros [(c & _ & Hc) _]%elem_of_load_and_clean_data.
  apply dropna_Some in Hc as (_ & _ & _ & _ & _ & _ & Hname & _).
  unfold Derived.DayOfWeekName, Derived.DayOfWeek in Hname.
  destruct (Csv.AppointmentDay c) as [t|]; simpl in Hname; [|done].
  destruct (dayofweek_name t) as (d & Hd & Hin). congruence.
Qed.

Lemma load_and_clean_data_Permutation (csv csv' : list Csv.row) :
  csv ≡ₚ csv' → load_and_clean_data csv ≡ₚ load_and_clean_data csv'.
Proof. intros H. rewrite !load_and_clean_data_omap. by rewrite H. Qed.

Lemma foldr_add_Permutation (l l' : list Z) :
  l ≡ₚ l' → foldr Z.add 0 l = foldr Z.add 0 l'.
Proof. induction 1; simpl; lia. Qed.

Lemma series_mean_Permutation (l l' : list Z) :
  l ≡ₚ l' → series_mean l = series_mean l'.
Proof.
  intros H. unfold series_mean.
  rewrite (foldr_add_Permutation l l' H), (Permutation_length H).
  destruct l, l'; try done.
  - by apply Permutation_nil_cons in H.
  - symmetry in H. by apply Permutation_nil_cons in H.
Qed.

Lemma day_row_Permutation (df df' : DataFrame) (d : string) :
  df ≡ₚ df' → day_row df d = day_row df' d.
Proof.
  intros H. unfold day_row. cbv zeta.
  assert (Hg : NoShow_Binary <$> filter (λ r, DayOfWeekName r = d) df
               ≡ₚ NoShow_Binary <$> filter (λ r, DayOfWeekName r = d) df')
    by (by rewrite H).
  assert (Hl : length (filter (λ r, DayOfWeekName r = d) df)
               = length (filter (λ r, DayOfWeekName r = d) df'))
    by (by rewrite H).
  unfold series_sum.
  by rewrite Hl, (foldr_add_Permutation _ _ Hg), (series_mean_Permutation _ _ Hg).
Qed.

(** C5 (counterexample): a cleaned table whose only appointment is on a
    Tuesday; the sorted output has the single row of Tuesday, so it neither
    begins with Monday nor ends with Sunday. *)
Lemma day_of_week_counterexample :
  let out := create_day_of_week_analysis (load_and_clean_data tuesday_only) in
  Day.DayOfWeek <$> out = ["Tuesday"] ∧
  head (Day.DayOfWeek <$> out) ≠ Some "Monday" ∧
  list.last (Day.DayOfWeek <$> out) ≠ Some "Sunday".
Proof. vm_compute. repeat split; discriminate. Qed.

(** C5 (amended): whatever the row order of the input, the sorted day-of-week
    output has one row for each weekday on which the cleaned table has an
    appointment, and no other row, in the order Monday to Sunday; it begins
    with Monday exactly when there is a Monday appointment and ends with
    Sunday exactly when there is a Sunday appointment. *)
Theorem day_of_week_canonical_order (csv csv' : list Csv.row) :
  csv ≡ₚ csv' →
  let df := load_and_clean_data csv in
  let out := create_day_of_week_analysis df in
  out = day_row df <$> filter (λ d, d ∈ DayOfWeekName <$> df) day_order ∧
  create_day_of_week_analysis (load_and_clean_data csv') = out ∧
  (head (Day.DayOfWeek <$> out) = Some "Monday" ↔ "Monday" ∈ DayOfWeekName <$> df) ∧
  (list.last (Day.DayOfWeek <$> out) = Some "Sunday" ↔
   "Sunday" ∈ DayOfWeekName <$> df).
Proof.
  intros Hperm. cbv zeta.
  assert (Hrows : ∀ csv,
    create_day_of_week_analysis (load_and_clean_data csv) =
    day_row (load_and_clean_data csv) <$>
      filter (λ d, d ∈ DayOfWeekName <$> load_and_clean_data csv) day_order).
  { intros l. rewrite create_day_of_week_analysis_rows.
    rewrite (filter_Forall_nil (λ k, k ∉ day_order)); [by rewrite app_nil_r|].
    apply list.Forall_forall. intros k Hk Hnot. apply Hnot.
    rewrite merge_sort_Permutation, elem_of_remove_dups in Hk.
    apply list_elem_of_fmap in Hk as (r & -> & Hr).
    by apply DayOfWeekName_day_order in Hr. }
  apply load_and_clean_data_Permutation in Hperm.
  split; [apply Hrows|]. split.
  - rewrite !Hrows.
    rewrite (list_filter_iff (λ d, d ∈ DayOfWeekName <$> load_and_clean_data csv')
               (λ d, d ∈ DayOfWeekName <$> load_and_clean_data csv))
      by (intros d; by rewrite Hperm).
    apply list_fmap_ext. intros _ d _. symmetry. by apply day_row_Permutation.
  - rewrite Hrows, <- list_fmap_compose.
    rewrite (list_fmap_ext _ id _ (λ _ _ _, eq_refl)), list_fmap_id.
    unfold day_order. rewrite !filter_cons, filter_nil.
    split; repeat case_decide; simpl; split; intros; (done || congruence).
Qed.

(** The first two rows of the sample file, swapped. *)
Lemma day_of_week_canonical_order_witness :
  let csv' :=
    [sample_row 8 (t0 + 1) t0 "MATA DA PRAIA" "M" "Yes";
     sample_row 62 t0 (t0 + 4 * ns_per_day) "JARDIM DA PENHA" "F" "No";
     sample_row 30 t0 (t0 + ns_per_day) " mata da praia" "M" "Yes"] in
  let df := load_and_clean_data sample_csv in
  let out := create_day_of_week_analysis df in
  out = day_row df <$> filter (λ d, d ∈ DayOfWeekName <$> df) day_order ∧
  create_day_of_week_analysis (load_and_clean_data csv') = out ∧
  (head (Day.DayOfWeek <$> out) = Some "Monday" ↔ "Monday" ∈ DayOfWeekName <$> df) ∧
  (list.last (Day.DayOfWeek <$> out) = Some "Sunday" ↔
   "Sunday" ∈ DayOfWeekName <$> df).
Proof.
  apply (day_of_week_canonical_order sample_csv).
  unfold sample_csv. apply perm_swap.
Defined.

Example create_day_of_week_analysis_sample :
  create_day_of_week_analysis (load_and_clean_data sample_csv) =
    [Day.mk "Tuesday" 1 (NpInt64 0) (Np.fin 0);
     Day.mk "Saturday" 1 (NpInt64 1) (Np.fin 100)].
Proof. vm_compute. reflexivity. Qed.

(** ** Worked examples *)

Example strip_title :
  Str.title (Str.strip "  JARDIM da penha ") = "Jardim Da Penha".
Proof. reflexivity. Qed.

Example load_and_clean_data_sample :
  (λ r, (Age r, Neighbourhood r, DaysWaiting r, DayOfWeekName r, AgeGroup r,
         NoShow_Binary r)) <$> load_and_clean_data sample_csv
  = [(62, "Jardim Da Penha", 4, "Tuesday", "Seniors (56+)", 0);
     (30, "Mata Da Praia", 1, "Saturday", "Young Adults (18-35)", 1)].
Proof. vm_compute. reflexivity. Qed.

(** Three rows of ages 10, 40 and 70, none attended: one row per age group
    and a no-show rate of 100. *)
Example three_no_shows :
  let df := load_and_clean_data
              [sample_row 10 t0 t0 "CENTRO" "F" "Yes";
               sample_row 40 t0 t0 "CENTRO" "M" "Yes";
               sample_row 70 t0 t0 "CENTRO" "F" "Yes"] in
  AgeGroup <$> df
    = ["Children (0-17)"; "Middle-aged (36-55)"; "Seniors (56+)"] ∧
  (s ← calculate_summary_statistics df; mret (no_show_rate s))
    = Ok (NpFloat64 (Np.fin (300 # 3))).
Proof. split; vm_compute; reflexivity. Qed.

(** * Further properties *)

(** ** Cleaning, row by row *)

(** Every cell of a row that survives [dropna], read back from the file. *)
Lemma dropna_Some_cells c r :
  dropna c = Some r →
  Csv.PatientId c = Some (PatientId r) ∧
  Csv.AppointmentID c = Some (AppointmentID r) ∧
  Csv.ScheduledDay c = Some (ScheduledDay r) ∧
  Csv.AppointmentDay c = Some (AppointmentDay r) ∧
  Csv.Scholarship c = Some (Scholarship r) ∧
  Csv.Hipertension c = Some (Hipertension r) ∧
  Csv.Diabetes c = Some (Diabetes r) ∧
  Csv.Alcoholism c = Some (Alcoholism r) ∧
  Csv.Handcap c = Some (Handcap r) ∧
  Csv.SMS_received c = Some (SMS_received r).
Proof.
  unfold dropna. intros H.
  repeat match type of H with
         | mbind _ ?o = Some _ => destruct o eqn:?; simpl in H; [|discriminate]
         end.
  injection H as <-. simpl. auto 12.
Qed.

Lemma timedelta_days_nonneg (delta : Z) : 0 ≤ timedelta_days delta ↔ 0 ≤ delta.
Proof.
  unfold timedelta_days, ns_per_day.
  change (86400 * 10 ^ 9) with 86400000000000.
  split; intros H.
  - destruct (decide (0 ≤ delta)) as [|Hneg]; [done|].
    assert (delta / 86400000000000 < 0) by (apply Z.div_lt_upper_bound; lia). lia.
  - apply Z.div_pos; lia.
Qed.

Lemma AgeGroup_bounds (a : Z) (label : string) :
  cut age_bins age_labels a = Some label → 0 ≤ a < 120.
Proof. rewrite cut_age_bins. repeat case_decide; intros; simplify_eq; lia. Qed.

Lemma dropna_age_bounds (c : Csv.row) (r : Row) :
  dropna c = Some r → 0 ≤ Age r < 120.
Proof.
  intros Hc.
  pose proof (dropna_Some c r Hc) as (Ha & _ & _ & _ & _ & _ & _ & Hg & _).
  unfold Derived.AgeGroup in Hg. rewrite Ha in Hg. simpl in Hg.
  by apply AgeGroup_bounds in Hg.
Qed.

Lemma cleaned_age_bounds (csv : list Csv.row) :
  Forall (λ r, 0 ≤ Age r < 120) (load_and_clean_data csv).
Proof.
  apply list.Forall_forall. intros r Hr.
  apply elem_of_load_and_clean_data in Hr as [(c & _ & Hc) _].
  by apply (dropna_age_bounds c).
Qed.

(** X1: the age filter that ends [load_and_clean_data] never removes a row.
    A row that survives [dropna] has an age group, so its age is at least 0
    and below 120; the cleaned table is what [dropna] and the waiting-days
    filter leave, and none of its rows has the age 120. *)
Theorem age_filter_redundant (csv : list Csv.row) :
  load_and_clean_data csv = filter (λ r, 0 ≤ DaysWaiting r) (omap dropna csv) ∧
  Forall (λ r, 0 ≤ Age r < 120) (load_and_clean_data csv).
Proof.
  split; [|apply cleaned_age_bounds].
  unfold load_and_clean_data. apply filter_Forall_id.
  apply list.Forall_forall. intros r [_ Hr]%list_elem_of_filter.
  apply list_elem_of_omap in Hr as (c & _ & Hc).
  apply dropna_age_bounds in Hc. simpl. lia.
Qed.

Lemma dropna_complete (c : Csv.row) (s a age : Z) :
  ¬ missing_field c →
  Csv.ScheduledDay c = Some s → Csv.AppointmentDay c = Some a →
  Csv.Age c = Some age → 0 ≤ age < 120 →
  ∃ r, dropna c = Some r ∧ Age r = age ∧ DaysWaiting r = timedelta_days (a - s).
Proof.
  intros Hmiss Hs Ha Hage Hbounds.
  destruct c as [pid aid g sd ad ag nb sc hi di al ha sm ns].
  unfold missing_field in Hmiss. simpl in *. subst sd ad ag.
  destruct pid; [|exfalso; apply Hmiss; tauto].
  destruct aid; [|exfalso; apply Hmiss; tauto].
  destruct g; [|exfalso; apply Hmiss; tauto].
  destruct nb; [|exfalso; apply Hmiss; tauto].
  destruct sc; [|exfalso; apply Hmiss; tauto].
  destruct hi; [|exfalso; apply Hmiss; tauto].
  destruct di; [|exfalso; apply Hmiss; tauto].
  destruct al; [|exfalso; apply Hmiss; tauto].
  destruct ha; [|exfalso; apply Hmiss; tauto].
  destruct sm; [|exfalso; apply Hmiss; tauto].
  destruct ns; [|exfalso; apply Hmiss; tauto].
  destruct (dayofweek_name a) as (d & Hd & _).
  destruct (age_group_below_120 age Hbounds) as (label & Hlabel & _).
  unfold dropna, Derived.Neighbourhood, Derived.DaysWaiting, Derived.DayOfWeek,
    Derived.DayOfWeekName, Derived.AgeGroup.
  simpl. rewrite Hd, Hlabel. simpl. eauto.
Qed.

(** X3: a row of the file is kept when none of its fields is missing, it was
    booked no later than the appointment and the age is at least 0 and below
    120; the kept row carries the age of the file and the whole days between
    booking and appointment. *)
Theorem load_and_clean_data_keeps (csv : list Csv.row) (c : Csv.row)
    (s a age : Z) :
  c ∈ csv →
  ¬ missing_field c →
  Csv.ScheduledDay c = Some s → Csv.AppointmentDay c = Some a → s ≤ a →
  Csv.Age c = Some age → 0 ≤ age < 120 →
  ∃ r, r ∈ load_and_clean_data csv ∧ dropna c = Some r ∧
       Age r = age ∧ DaysWaiting r = (a - s) / ns_per_day.
Proof.
  intros Hc Hmiss Hs Ha Hsa Hage Hbounds.
  destruct (dropna_complete c s a age) as (r & Hr & Hrage & Hrdays); try done.
  exists r. split; [|done].
  apply elem_of_load_and_clean_data. split; [eauto|].
  unfold valid_row. rewrite Hrage, Hrdays.
  split; [|lia]. apply timedelta_days_nonneg. lia.
Qed.

Lemma load_and_clean_data_keeps_witness :
  ∃ r, r ∈ load_and_clean_data sample_csv ∧
       dropna (sample_row 30 t0 (t0 + ns_per_day) " mata da praia" "M" "Yes")
         = Some r ∧
       Age r = 30 ∧ DaysWaiting r = (t0 + ns_per_day - t0) / ns_per_day.
Proof.
  apply (load_and_clean_data_keeps sample_csv
           (sample_row 30 t0 (t0 + ns_per_day) " mata da praia" "M" "Yes")
           t0 (t0 + ns_per_day) 30).
  - do 2 apply list_elem_of_further. apply list_elem_of_here.
  - unfold missing_field. simpl. intros H.
    repeat destruct H as [H|H]; discriminate.
  - reflexivity.
  - reflexivity.
  - vm_compute. discriminate.
  - reflexivity.
  - lia.
Defined.

(** X4: a booking stamped later than its appointment is dropped.  When it is
    at most one day later, as for a booking made during the day of an
    appointment that is stamped at midnight, its [DaysWaiting] is -1. *)
Theorem booking_after_appointment_dropped (c : Csv.row) (s a : Z) :
  Csv.ScheduledDay c = Some s → Csv.AppointmentDay c = Some a → a < s →
  (∃ d, Derived.DaysWaiting c = Some d ∧ d < 0 ∧
        (s ≤ a + ns_per_day → d = -1)) ∧
  ∀ l1 l2, load_and_clean_data (l1 ++ c :: l2) = load_and_clean_data (l1 ++ l2).
Proof.
  intros Hs Ha Has.
  assert (Hd : Derived.DaysWaiting c = Some (timedelta_days (a - s)))
    by (unfold Derived.DaysWaiting; by rewrite Ha, Hs).
  assert (Hneg : timedelta_days (a - s) < 0).
  { destruct (decide (0 ≤ timedelta_days (a - s))) as [H|H]; [|lia].
    apply (proj1 (timedelta_days_nonneg _)) in H. lia. }
  split.
  - exists (timedelta_days (a - s)). split; [done|]. split; [done|].
    intros Hday. unfold timedelta_days, ns_per_day in *.
    change (86400 * 10 ^ 9) with 86400000000000 in *.
    assert (-1 ≤ (a - s) / 86400000000000)
      by (apply Z.div_le_lower_bound; lia).
    lia.
  - intros l1 l2.
    rewrite !load_and_clean_data_omap, !omap_app, omap_cons.
    rewrite (clean_row_invalid c); [done|].
    right. left. by exists (timedelta_days (a - s)).
Qed.

(** A booking at 18:38:08 on the day of the appointment. *)
Lemma booking_after_appointment_dropped_witness :
  let c := sample_row 62 (t0 + 67088 * 10 ^ 9) t0 "JARDIM DA PENHA" "F" "No" in
  (∃ d, Derived.DaysWaiting c = Some d ∧ d < 0 ∧
        (t0 + 67088 * 10 ^ 9 ≤ t0 + ns_per_day → d = -1)) ∧
  ∀ l1 l2, load_and_clean_data (l1 ++ c :: l2) = load_and_clean_data (l1 ++ l2).
Proof.
  apply (booking_after_appointment_dropped _ (t0 + 67088 * 10 ^ 9) t0).
  - reflexivity.
  - reflexivity.
  - vm_compute. reflexivity.
Defined.

Lemma day_names_day_order (k : Z) (name : string) :
  0 ≤ k < 7 → day_names !! k = Some name → day_order !! Z.to_nat k = Some name.
Proof.
  intros Hk.
  assert (Hk' : k = 0 ∨ k = 1 ∨ k = 2 ∨ k = 3 ∨ k = 4 ∨ k = 5 ∨ k = 6) by lia.
  clear Hk. repeat destruct Hk' as [-> | Hk']; try subst k;
    vm_compute; intros H; exact H.
Qed.

(** X5: in the cleaned table the derived columns agree with the columns they
    come from: [DaysWaiting] is the number of whole days from booking to
    appointment and the booking is not later than the appointment,
    [DayOfWeek] is a number from 0 to 6 and [DayOfWeekName] the name at that
    position of Monday..Sunday, and [AgeGroup] is the label of the age. *)
Theorem cleaned_rows_consistent (csv : list Csv.row) :
  Forall (λ r,
      DaysWaiting r = (AppointmentDay r - ScheduledDay r) / ns_per_day ∧
      ScheduledDay r ≤ AppointmentDay r ∧
      DayOfWeek r = (AppointmentDay r / ns_per_day + 3) mod 7 ∧
      day_order !! Z.to_nat (DayOfWeek r) = Some (DayOfWeekName r) ∧
      cut age_bins age_labels (Age r) = Some (AgeGroup r))
    (load_and_clean_data csv).
Proof.
  apply list.Forall_forall. intros r Hr.
  apply elem_of_load_and_clean_data in Hr as [(c & _ & Hc) [Hdays _]].
  pose proof (dropna_Some c r Hc) as (Ha & _ & _ & _ & Hd & Hw & Hn & Hg & _).
  pose proof (dropna_Some_cells c r Hc) as (_ & _ & Hs & Hap & _).
  unfold Derived.DaysWaiting, Derived.DayOfWeekName, Derived.DayOfWeek,
    Derived.AgeGroup in *.
  rewrite Hap, ?Hs, ?Ha in *. simpl in *.
  injection Hd as Hd. injection Hw as Hw.
  rewrite <- Hd in Hdays. apply (proj1 (timedelta_days_nonneg _)) in Hdays.
  split; [done|]. split; [lia|]. split; [done|]. split; [|done].
  rewrite Hw in Hn. apply day_names_day_order; [|done].
  rewrite <- Hw. unfold dayofweek. apply Z.mod_pos_bound. lia.
Qed.

(** ** Neighbourhood names *)

Lemma case_change_char (f : ascii → ascii) (c : ascii) :
  f = Str.upper ∨ f = Str.lower →
  Str.isspace (f c) = Str.isspace c ∧
  (Str.islower (f c) || Str.isupper (f c)) = (Str.islower c || Str.isupper c) ∧
  Str.lower (f c) = Str.lower c ∧
  Str.upper (f c) = Str.upper c ∧
  (Str.islower c || Str.isupper c = false → f c = c).
Proof.
  intros [-> | ->];
    destruct c as [[] [] [] [] [] [] [] []]; vm_compute; repeat split;
    first [reflexivity | intros H; first [discriminate H | reflexivity]].
Qed.

Section case_change.
Context (f : ascii → ascii) (Hf : f = Str.upper ∨ f = Str.lower).

Lemma title_go_map_chars (b : bool) (s : string) :
  Str.title_go b (map_chars f s) = Str.title_go b s.
Proof.
  revert b. induction s as [|c s IH]; intros b; [reflexivity|].
  destruct (case_change_char f c Hf) as (_ & Hcased & Hlower & Hupper & Hfix).
  simpl. rewrite Hcased, Hlower, Hupper, !IH.
  destruct (Str.islower c || Str.isupper c); [reflexivity|].
  by rewrite Hfix.
Qed.

Lemma lstrip_map_chars (s : string) :
  Str.lstrip (map_chars f s) = map_chars f (Str.lstrip s).
Proof.
  induction s as [|c s IH]; [reflexivity|].
  destruct (case_change_char f c Hf) as (Hspace & _).
  simpl. rewrite Hspace. by destruct (Str.isspace c).
Qed.

Lemma rev_app_map_chars (s acc : string) :
  String.rev_app (map_chars f s) (map_chars f acc)
  = map_chars f (String.rev_app s acc).
Proof.
  revert acc. induction s as [|c s IH]; intros acc; [reflexivity|].
  simpl. by rewrite <- IH.
Qed.

Lemma strip_map_chars (s : string) :
  Str.strip (map_chars f s) = map_chars f (Str.strip s).
Proof.
  unfold Str.strip, String.rev.
  rewrite lstrip_map_chars.
  rewrite (rev_app_map_chars _ ""), lstrip_map_chars.
  by rewrite (rev_app_map_chars _ "").
Qed.
End case_change.

Lemma append_cons (c : ascii) (s1 s2 : string) :
  String c s1 +:+ s2 = String c (s1 +:+ s2).
Proof. reflexivity. Qed.

Lemma append_nil_r (s : string) : s +:+ "" = s.
Proof.
  induction s as [|c s IH]; [reflexivity|]. by rewrite append_cons, IH.
Qed.

Lemma append_assoc (s1 s2 s3 : string) :
  (s1 +:+ s2) +:+ s3 = s1 +:+ (s2 +:+ s3).
Proof.
  induction s1 as [|c s1 IH]; [reflexivity|]. by rewrite !append_cons, IH.
Qed.

Lemma rev_app_append (s acc : string) :
  String.rev_app s acc = String.rev s +:+ acc.
Proof.
  unfold String.rev. revert acc.
  induction s as [|c s IH]; intros acc; [reflexivity|].
  simpl. rewrite (IH (String c "")), IH.
  by rewrite append_assoc.
Qed.

Lemma rev_append (s1 s2 : string) :
  String.rev (s1 +:+ s2) = String.rev s2 +:+ String.rev s1.
Proof.
  induction s1 as [|c s1 IH].
  - simpl. by rewrite append_nil_r.
  - unfold String.rev in *. simpl.
    rewrite (rev_app_append (s1 +:+ s2)), (rev_app_append s1).
    unfold String.rev. by rewrite IH, append_assoc.
Qed.

Lemma all_space_rev_app (s acc : string) :
  all_space (String.rev_app s acc) = all_space s && all_space acc.
Proof.
  revert acc. induction s as [|c s IH]; intros acc; [reflexivity|].
  simpl. rewrite IH. simpl.
  destruct (Str.isspace c), (all_space s), (all_space acc); reflexivity.
Qed.

Lemma lstrip_all_space (p s : string) :
  all_space p = true → Str.lstrip (p +:+ s) = Str.lstrip s.
Proof.
  induction p as [|c p IH]; [reflexivity|].
  rewrite append_cons. simpl. intros [Hc Hp]%andb_prop. rewrite Hc. auto.
Qed.

Lemma lstrip_all_space_nil (s : string) :
  all_space s = true → Str.lstrip s = "".
Proof.
  induction s as [|c s IH]; [reflexivity|].
  simpl. intros [Hc Hs]%andb_prop. rewrite Hc. auto.
Qed.

Lemma lstrip_append (s p : string) :
  all_space p = true →
  Str.lstrip (s +:+ p) = if all_space s then "" else Str.lstrip s +:+ p.
Proof.
  intros Hp. induction s as [|c s IH].
  - change ("" +:+ p) with p. simpl. by apply lstrip_all_space_nil.
  - rewrite append_cons. simpl.
    destruct (Str.isspace c); simpl; [exact IH | reflexivity].
Qed.

Lemma strip_padding (p1 s p2 : string) :
  all_space p1 = true → all_space p2 = true →
  Str.strip (p1 +:+ s +:+ p2) = Str.strip s.
Proof.
  intros H1 H2. unfold Str.strip.
  rewrite lstrip_all_space by done.
  rewrite lstrip_append by done.
  destruct (all_space s) eqn:Hs.
  - by rewrite (lstrip_all_space_nil s Hs).
  - rewrite rev_append, lstrip_all_space; [done|].
    unfold String.rev. by rewrite all_space_rev_app, H2.
Qed.

(** X6: for a name written in ASCII, the cleaned neighbourhood name does
    not depend on the letter case of the cell nor on ASCII white space
    around it: a cell that spells the same name in upper or in lower case,
    with blanks before or after, is given the same name.  (Names with
    letters outside ASCII are not covered.) *)
Theorem neighbourhood_spelling (c c' : Csv.row) (f : ascii → ascii)
    (s p1 p2 : string) :
  isascii s = true →
  f = Str.upper ∨ f = Str.lower →
  all_space p1 = true → all_space p2 = true →
  Csv.Neighbourhood c = Some s →
  Csv.Neighbourhood c' = Some (p1 +:+ map_chars f s +:+ p2) →
  Derived.Neighbourhood c' = Derived.Neighbourhood c.
Proof.
  intros _ Hf H1 H2 Hc Hc'.
  unfold Derived.Neighbourhood. rewrite Hc, Hc'. simpl. f_equal.
  rewrite strip_padding by done.
  rewrite (strip_map_chars f Hf). unfold Str.title.
  by rewrite (title_go_map_chars f Hf).
Qed.

Lemma neighbourhood_spelling_witness :
  Derived.Neighbourhood
    (sample_row 30 t0 t0 "  MATA DA PRAIA " "M" "Yes")
  = Derived.Neighbourhood (sample_row 30 t0 t0 "Mata da Praia" "M" "Yes").
Proof.
  apply (neighbourhood_spelling _ _ Str.upper "Mata da Praia" "  " " ").
  - reflexivity.
  - by left.
  - reflexivity.
  - reflexivity.
  - reflexivity.
  - reflexivity.
Defined.

(** ** Bounds of the summary *)

Lemma inject_Z_pos (n : Z) : 0 < n → (0 < inject_Z n)%Q.
Proof. intros Hn. unfold Qlt, inject_Z. simpl. lia. Qed.

Lemma ratio_bounds (x n : Z) :
  0 ≤ x ≤ n → 0 < n →
  (0 <= inject_Z x / inject_Z n * 100)%Q ∧ (inject_Z x / inject_Z n * 100 <= 100)%Q.
Proof.
  intros Hx Hn. pose proof (inject_Z_pos n Hn) as Hn'.
  assert (H0 : (0 <= inject_Z x / inject_Z n)%Q).
  { apply Qle_shift_div_l; [done|]. rewrite Qmult_0_l.
    unfold Qle, inject_Z. simpl. lia. }
  assert (H1 : (inject_Z x / inject_Z n <= 1)%Q).
  { apply Qle_shift_div_r; [done|]. rewrite Qmult_1_l.
    rewrite <- (Zle_Qle x n). lia. }
  split; nra.
Qed.

Lemma sum_lower (lo : Z) (l : list Z) :
  Forall (λ x, lo ≤ x) l → lo * Z.of_nat (length l) ≤ foldr Z.add 0 l.
Proof.
  induction l as [|x l IH]; intros Hl; [simpl; lia|].
  apply list.Forall_cons in Hl as [Hx Hl]. specialize (IH Hl).
  rewrite length_cons, Nat2Z.inj_succ. cbn [foldr]. lia.
Qed.

Lemma sum_upper (hi : Z) (l : list Z) :
  Forall (λ x, x ≤ hi) l → foldr Z.add 0 l ≤ hi * Z.of_nat (length l).
Proof.
  induction l as [|x l IH]; intros Hl; [simpl; lia|].
  apply list.Forall_cons in Hl as [Hx Hl]. specialize (IH Hl).
  rewrite length_cons, Nat2Z.inj_succ. cbn [foldr]. lia.
Qed.

(** The mean of a non-empty column is a number. *)
Lemma series_mean_fin (l : list Z) :
  l ≠ [] →
  series_mean l
  = Np.fin (inject_Z (foldr Z.add 0 l) / inject_Z (Z.of_nat (length l))).
Proof. by destruct l. Qed.

Lemma mean_lower (lo : Z) (l : list Z) :
  l ≠ [] → Forall (λ x, lo ≤ x) l →
  (inject_Z lo <= inject_Z (foldr Z.add 0%Z l) / inject_Z (Z.of_nat (length l)))%Q.
Proof.
  intros Hne Hl. pose proof (sum_lower lo l Hl).
  assert (Hn : 0 < Z.of_nat (length l)) by (destruct l; [done | simpl; lia]).
  apply Qle_shift_div_l; [by apply inject_Z_pos|].
  rewrite <- inject_Z_mult, <- Zle_Qle. lia.
Qed.

Lemma mean_upper (hi : Z) (l : list Z) :
  l ≠ [] → Forall (λ x, x ≤ hi) l →
  (inject_Z (foldr Z.add 0%Z l) / inject_Z (Z.of_nat (length l)) <= inject_Z hi)%Q.
Proof.
  intros Hne Hl. pose proof (sum_upper hi l Hl).
  assert (Hn : 0 < Z.of_nat (length l)) by (destruct l; [done | simpl; lia]).
  apply Qle_shift_div_r; [by apply inject_Z_pos|].
  rewrite <- inject_Z_mult, <- Zle_Qle. lia.
Qed.

(** X7: on a non-empty cleaned table the show rate and the no-show rate lie
    between 0 and 100, the average age is at least 0 and at most 119 and the
    average waiting time is not negative. *)
Theorem summary_bounds (csv : list Csv.row) :
  let df := load_and_clean_data csv in
  df ≠ [] →
  Z.of_nat (length df) < 2 ^ 63 →
  ∃ s a b m w,
    calculate_summary_statistics df = Ok s ∧
    show_rate s = NpFloat64 (Np.fin a) ∧ (0 <= a)%Q ∧ (a <= 100)%Q ∧
    no_show_rate s = NpFloat64 (Np.fin b) ∧ (0 <= b)%Q ∧ (b <= 100)%Q ∧
    avg_age s = Np.fin m ∧ (0 <= m)%Q ∧ (m <= 119)%Q ∧
    avg_waiting_days s = Np.fin w ∧ (0 <= w)%Q.
Proof.
  intros df Hne Hlen.
  pose proof (flag_sum_bounds df (NoShow_Binary_flag csv)) as Hsum.
  assert (Hn : 0 < Z.of_nat (length df)) by (destruct df; [done | simpl; lia]).
  assert (Hage : Forall (λ r, 0 ≤ Age r < 120) df) by apply cleaned_age_bounds.
  assert (Hwait : Forall (λ r, 0 ≤ DaysWaiting r) df).
  { apply list.Forall_forall. intros r Hr.
    by apply elem_of_load_and_clean_data in Hr as [_ [? _]]. }
  assert (Hne' : ∀ f : Row → Z, f <$> df ≠ []) by (intros f; by destruct df).
  rewrite calculate_summary_statistics_Ok. simpl.
  set (n := Z.of_nat (length df)) in *.
  set (k := foldr Z.add 0 (NoShow_Binary <$> df)) in *.
  rewrite (wrap64_small k) by lia.
  rewrite (wrap64_small (n - k)) by lia.
  unfold Np.div, Np.of_Z. rewrite (Qzero_inject_Z n) by lia. simpl.
  rewrite !series_mean_fin by done.
  destruct (ratio_bounds (n - k) n) as [Ha0 Ha1]; [lia..|].
  destruct (ratio_bounds k n) as [Hb0 Hb1]; [lia..|].
  do 5 eexists.
  split; [reflexivity|].
  split; [reflexivity|]. split; [exact Ha0|]. split; [exact Ha1|].
  split; [reflexivity|]. split; [exact Hb0|]. split; [exact Hb1|].
  split; [reflexivity|]. split; [|split]; [| |split; [reflexivity|]].
  - apply (mean_lower 0); [done|]. apply Forall_fmap.
    eapply list.Forall_impl; [exact Hage|]. intros r Hr. simpl in *. lia.
  - apply (mean_upper 119); [done|]. apply Forall_fmap.
    eapply list.Forall_impl; [exact Hage|]. intros r Hr. simpl in *. lia.
  - apply (mean_lower 0); [done|]. by apply Forall_fmap.
Qed.

Lemma summary_bounds_witness :
  ∃ s a b m w,
    calculate_summary_statistics (load_and_clean_data sample_csv) = Ok s ∧
    show_rate s = NpFloat64 (Np.fin a) ∧ (0 <= a)%Q ∧ (a <= 100)%Q ∧
    no_show_rate s = NpFloat64 (Np.fin b) ∧ (0 <= b)%Q ∧ (b <= 100)%Q ∧
    avg_age s = Np.fin m ∧ (0 <= m)%Q ∧ (m <= 119)%Q ∧
    avg_waiting_days s = Np.fin w ∧ (0 <= w)%Q.
Proof.
  apply (summary_bounds sample_csv).
  - vm_compute. discriminate.
  - vm_compute. reflexivity.
Defined.

(** ** Counts and row order in the summary *)

Lemma multiplicity_list_to_set_disj (g : string) (l : list string) :
  multiplicity g (list_to_set_disj l : gmultiset string)
  = length (filter (λ x, x = g) l).
Proof.
  induction l as [|x l IH]; [reflexivity|].
  rewrite list_to_set_disj_cons, multiplicity_disj_union, IH, filter_cons.
  destruct (decide (x = g)) as [->|Hx].
  - by rewrite multiplicity_singleton_eq.
  - by rewrite multiplicity_singleton_ne.
Qed.

Lemma size_list_to_set_disj (l : list string) :
  size (list_to_set_disj l : gmultiset string) = length l.
Proof.
  induction l as [|x l IH]; [reflexivity|].
  by rewrite list_to_set_disj_cons, gmultiset_size_disj_union,
    gmultiset_size_singleton, IH.
Qed.

(** X8: the gender counts of the summary add up to the total number of
    appointments, and the count of a gender is the number of rows of that
    gender (0 for a gender that does not occur). *)
Theorem gender_counts_total (df : DataFrame) :
  ∃ s, calculate_summary_statistics df = Ok s ∧
       total_appointments s = PyInt (Z.of_nat (size (gender_counts s))) ∧
       ∀ g, multiplicity g (gender_counts s)
            = length (filter (λ r, Gender r = g) df).
Proof.
  rewrite calculate_summary_statistics_Ok. eexists. split; [reflexivity|].
  simpl. split.
  - by rewrite size_list_to_set_disj, length_fmap.
  - intros g. rewrite multiplicity_list_to_set_disj.
    symmetry. by apply length_filter_fmap.
Qed.

(** X9: the summary does not depend on the order of the rows. *)
Theorem calculate_summary_statistics_Permutation (df df' : DataFrame) :
  df ≡ₚ df' →
  calculate_summary_statistics df = calculate_summary_statistics df'.
Proof.
  intros H. rewrite !calculate_summary_statistics_Ok. cbv zeta.
  assert (Hsum : ∀ column : Row → Z,
    foldr Z.add 0 (column <$> df) = foldr Z.add 0 (column <$> df')).
  { intros column. apply foldr_add_Permutation. by rewrite H. }
  assert (Hmean : ∀ column : Row → Z,
    series_mean (column <$> df) = series_mean (column <$> df')).
  { intros column. apply series_mean_Permutation. by rewrite H. }
  rewrite (Permutation_length H), !Hsum, !Hmean.
  by rewrite (list_to_set_disj_perm (Gender <$> df) (Gender <$> df'))
    by (by rewrite H).
Qed.

Lemma calculate_summary_statistics_Permutation_witness :
  calculate_summary_statistics (load_and_clean_data sample_csv)
  = calculate_summary_statistics (reverse (load_and_clean_data sample_csv)).
Proof.
  apply calculate_summary_statistics_Permutation.
  symmetry. apply reverse_Permutation.
Defined.

(** ** Views *)

(** The view as one filter of the table. *)
Lemma filtered_df_filter (df : DataFrame) (age_group gender : string)
    (max_waiting_days : Z) :
  filtered_df df age_group gender max_waiting_days =
    filter (λ r, (age_group = "all" ∨ AgeGroup r = age_group) ∧
                 (gender = "all" ∨ Gender r = gender) ∧
                 DaysWaiting r ≤ max_waiting_days) df.
Proof.
  unfold filtered_df.
  destruct (decide (age_group ≠ "all")) as [Ha|Ha];
    destruct (decide (gender ≠ "all")) as [Hg|Hg];
    lazy zeta iota beta;
    try apply dec_stable in Ha; try apply dec_stable in Hg;
    rewrite ?(list_filter_filter (λ r, Gender r = gender)
                                 (λ r, AgeGroup r = age_group));
    rewrite ?(list_filter_filter (λ r, DaysWaiting r ≤ max_waiting_days));
    apply list_filter_iff; intros r; intuition.
Qed.

(** X10: a view lists rows of its table in table order, and filtering a view
    again with the same selectors and a threshold [m'] gives the view of the
    table for the smaller of the two thresholds; in particular filtering
    twice with the same controls changes nothing. *)
Theorem filtered_df_again (df : DataFrame) (age_group gender : string)
    (m m' : Z) :
  filtered_df df age_group gender m `sublist_of` df ∧
  filtered_df (filtered_df df age_group gender m) age_group gender m'
    = filtered_df df age_group gender (m `min` m') ∧
  filtered_df (filtered_df df age_group gender m) age_group gender m
    = filtered_df df age_group gender m.
Proof.
  assert (Hmin : ∀ m', filtered_df (filtered_df df age_group gender m) age_group gender m'
    = filtered_df df age_group gender (m `min` m')).
  { intros m''. rewrite !filtered_df_filter.
    rewrite (list_filter_filter
      (λ r, (age_group = "all" ∨ AgeGroup r = age_group) ∧
            (gender = "all" ∨ Gender r = gender) ∧ DaysWaiting r ≤ m'')
      (λ r, (age_group = "all" ∨ AgeGroup r = age_group) ∧
            (gender = "all" ∨ Gender r = gender) ∧ DaysWaiting r ≤ m)).
    apply list_filter_iff. intros r. rewrite Z.min_glb_iff. tauto. }
  split; [|split].
  - rewrite filtered_df_filter. apply sublist_filter.
  - apply Hmin.
  - rewrite Hmin. by rewrite Z.min_id.
Qed.

(** ** The slider *)

Lemma Qneg_nonneg (q : Q) : (0 <= q)%Q → Np.Qneg q = false.
Proof.
  unfold Np.Qneg, Qle. simpl. intros H. apply bool_decide_eq_false. lia.
Qed.

Lemma le_Qfloor (d : Z) (q : Q) : d ≤ Qfloor q ↔ (inject_Z d <= q)%Q.
Proof.
  split; intros H.
  - apply Qle_trans with (inject_Z (Qfloor q)); [|apply Qfloor_le].
    by rewrite <- Zle_Qle.
  - rewrite <- (Qfloor_Z d). by apply Qfloor_resp_le.
Qed.

Lemma Qtrunc_between (a b : Z) (q : Q) :
  (inject_Z a <= q)%Q → (q <= inject_Z b)%Q →
  a ≤ Qfloor q ≤ b ∧ a ≤ Qceiling q ≤ b.
Proof.
  intros Ha Hb.
  pose proof (Qfloor_le q) as Hfloor. pose proof (Qle_ceiling q) as Hceil.
  repeat split.
  - by apply le_Qfloor.
  - rewrite Zle_Qle. by apply Qle_trans with q.
  - rewrite Zle_Qle. by apply Qle_trans with q.
  - rewrite <- (Qceiling_Z b). by apply Qceiling_resp_le.
Qed.

(** X11: the slider value is computed for every non-empty table and for no
    empty one: on an empty table the quantile is NaN and [int] raises
    [ValueError], so the page cannot be built from an empty cleaned table.
    On a non-empty table the value is a whole number that lies between the
    [DaysWaiting] of two rows of the table. *)
Theorem slider_value_defined (df : DataFrame) :
  (slider_value df = Fail ValueError ↔ df = []) ∧
  (df ≠ [] → ∃ m r1 r2, slider_value df = Done m ∧ r1 ∈ df ∧ r2 ∈ df ∧
                        DaysWaiting r1 ≤ m ≤ DaysWaiting r2).
Proof.
  assert (Hdone : df ≠ [] →
            ∃ m r1 r2, slider_value df = Done m ∧ r1 ∈ df ∧ r2 ∈ df ∧
                       DaysWaiting r1 ≤ m ≤ DaysWaiting r2).
  { intros Hne.
    assert (Hcol : DaysWaiting <$> df ≠ []) by (by destruct df).
    destruct (series_quantile_95 _ Hcol) as (q & a & b & Hq & Ha & Hb & Haq & Hqb).
    assert (Hin : ∀ x, x ∈ merge_sort Z.le (DaysWaiting <$> df) →
                       ∃ r, r ∈ df ∧ DaysWaiting r = x).
    { intros x Hx. rewrite merge_sort_Permutation in Hx.
      apply list_elem_of_fmap in Hx as (r & -> & Hr). eauto. }
    destruct (Hin a) as (r1 & Hr1 & Hd1); [by eapply list_elem_of_lookup_2|].
    destruct (Hin b) as (r2 & Hr2 & Hd2).
    { rewrite Hb.
      destruct (merge_sort Z.le (DaysWaiting <$> df)
                  !! S (Z.to_nat ((Z.of_nat (length (DaysWaiting <$> df)) - 1)
                                  * 95 / 100))) as [b'|] eqn:Hb'; simpl;
        by eapply list_elem_of_lookup_2. }
    destruct (Qtrunc_between a b q Haq Hqb) as [Hfloor Hceil].
    unfold slider_value. rewrite Hq. simpl.
    exists (if Np.Qneg q then Qceiling q else Qfloor q), r1, r2.
    rewrite Hd1, Hd2. repeat split; try done; destruct (Np.Qneg q); lia. }
  split; [|done]. split.
  - intros Hfail. destruct (decide (df = [])) as [|Hne]; [done|].
    destruct (Hdone Hne) as (m & _ & _ & Hm & _). congruence.
  - intros ->. reflexivity.
Qed.

Lemma slider_value_defined_witness :
  ∃ m r1 r2, slider_value waiting_rows = Done m ∧
             r1 ∈ waiting_rows ∧ r2 ∈ waiting_rows ∧
             DaysWaiting r1 ≤ m ≤ DaysWaiting r2.
Proof.
  apply (proj2 (slider_value_defined waiting_rows)).
  vm_compute. discriminate.
Defined.

(** X12: when no row of a non-empty table has a negative [DaysWaiting], the
    view that the page shows first (both selectors at "all", the slider at
    its initial value) is exactly the input of the waiting-time histogram of
    the whole table: it already leaves out the rows above the 95% quantile. *)
Theorem initial_view (df : DataFrame) :
  df ≠ [] →
  Forall (λ r, 0 ≤ DaysWaiting r) df →
  ∃ m, slider_value df = Done m ∧
       filtered_df df "all" "all" m = create_waiting_time_analysis df.
Proof.
  intros Hne Hdf.
  assert (Hcol : DaysWaiting <$> df ≠ []) by (by destruct df).
  destruct (series_quantile_95 _ Hcol) as (q & a & b & Hq & Ha & _ & Haq & _).
  assert (Ha0 : 0 ≤ a).
  { assert (Hin : a ∈ DaysWaiting <$> df).
    { rewrite <- (merge_sort_Permutation Z.le). by eapply list_elem_of_lookup_2. }
    apply list_elem_of_fmap in Hin as (r & -> & Hr).
    by apply (proj1 (list.Forall_forall _ _) Hdf). }
  assert (Hq0 : (0 <= q)%Q).
  { apply Qle_trans with (inject_Z a); [|done].
    unfold Qle, inject_Z. simpl. lia. }
  exists (Qfloor q). split.
  - unfold slider_value. rewrite Hq. simpl. by rewrite Qneg_nonneg.
  - rewrite filtered_df_filter. unfold create_waiting_time_analysis. cbv zeta.
    rewrite Hq. apply list_filter_iff. intros r. simpl.
    rewrite Qle_bool_iff, <- le_Qfloor. intuition.
Qed.

Lemma initial_view_witness :
  ∃ m, slider_value waiting_rows = Done m ∧
       filtered_df waiting_rows "all" "all" m
       = create_waiting_time_analysis waiting_rows.
Proof.
  apply (initial_view waiting_rows).
  - vm_compute. discriminate.
  - apply (bool_decide_unpack _). vm_compute. exact I.
Defined.

(** ** The pie chart *)

Lemma first_seen_elem_of (l : list string) (x : string) :
  x ∈ first_seen l ↔ x ∈ l.
Proof.
  unfold first_seen. by rewrite elem_of_reverse, elem_of_remove_dups, elem_of_reverse.
Qed.

Lemma first_seen_NoDup (l : list string) : NoDup (first_seen l).
Proof. unfold first_seen. rewrite reverse_Permutation. apply NoDup_remove_dups. Qed.

Lemma first_seen_length (l : list string) :
  length (first_seen l) = length (remove_dups l).
Proof.
  apply Permutation_length, NoDup_Permutation.
  - apply first_seen_NoDup.
  - apply NoDup_remove_dups.
  - intros x. by rewrite first_seen_elem_of, elem_of_remove_dups.
Qed.

Lemma value_counts_length (l : list string) :
  length (value_counts l) = length (remove_dups l).
Proof.
  unfold value_counts.
  by rewrite (Permutation_length (stable_sort_Permutation _ _)),
    length_fmap, first_seen_length.
Qed.

(** X13: the pie chart can be drawn exactly when the table has two different
    outcome labels; with one label only (everybody came, or nobody), with
    none (an empty table) or with more than two, plotly rejects the two names
    given for another number of counts. *)
Theorem create_no_show_overview_chart_error (df : DataFrame) :
  (create_no_show_overview_chart df = Fail ValueError ↔
   length (remove_dups (No_show <$> df)) ≠ 2%nat) ∧
  (length (remove_dups (No_show <$> df)) = 2%nat →
   ∃ counts, create_no_show_overview_chart df = Done counts ∧
             counts.*1 = ["Showed Up"; "No Show"]).
Proof.
  unfold create_no_show_overview_chart, px_pie. cbv zeta.
  rewrite length_fmap, value_counts_length. simpl.
  destruct (decide (length (remove_dups (No_show <$> df)) = 2%nat)) as [H2|H2].
  - split; [split; [discriminate | done]|]. intros _.
    eexists. split; [reflexivity|].
    pose proof (value_counts_length (No_show <$> df)) as Hlen.
    rewrite H2 in Hlen.
    destruct (value_counts (No_show <$> df)) as [|x [|y [|z l]]]; try done.
  - split; [done|]. intros H. by destruct H2.
Qed.

Lemma create_no_show_overview_chart_error_witness :
  ∃ counts,
    create_no_show_overview_chart (load_and_clean_data sample_csv) = Done counts ∧
    counts.*1 = ["Showed Up"; "No Show"].
Proof.
  apply (proj2 (create_no_show_overview_chart_error
                  (load_and_clean_data sample_csv))).
  vm_compute. reflexivity.
Defined.

(** X14: the names of the two slices go by position, and the counts are
    ordered by size: "Showed Up" names the count of the label that occurs
    more often and "No Show" that of the other, whichever the labels are;
    when the no-shows ("Yes") outnumber the shows, their count is the slice
    named "Showed Up". *)
Theorem create_no_show_overview_chart_majority (df : DataFrame) (u v : string) :
  u ≠ v →
  Forall (λ r, No_show r = u ∨ No_show r = v) df →
  (0 < length (filter (λ r, No_show r = v) df)
     < length (filter (λ r, No_show r = u) df))%nat →
  create_no_show_overview_chart df =
    Done [("Showed Up", length (filter (λ r, No_show r = u) df));
          ("No Show", length (filter (λ r, No_show r = v) df))].
Proof.
  intros Huv Hdf [Hv Hu].
  set (count := λ x, length (filter (λ y, y = x) (No_show <$> df))).
  assert (Hcount : ∀ x, length (filter (λ r, No_show r = x) df) = count x).
  { intros x. unfold count. by apply length_filter_fmap. }
  rewrite !Hcount in *.
  assert (Hkeys : first_seen (No_show <$> df) ≡ₚ [u; v]).
  { apply NoDup_Permutation; [apply first_seen_NoDup| |].
    - apply list.NoDup_cons. split; [|apply NoDup_singleton].
      by intros ?%list_elem_of_singleton.
    - intros x. rewrite first_seen_elem_of, list_elem_of_fmap. split.
      + intros (r & -> & Hr).
        destruct (proj1 (list.Forall_forall _ _) Hdf r Hr) as [-> | ->]; set_solver.
      + intros Hx.
        assert (Hpos : (0 < count x)%nat).
        { repeat (apply elem_of_cons in Hx as [-> | Hx]); try lia.
          by apply not_elem_of_nil in Hx. }
        rewrite <- Hcount in Hpos.
        apply filter_nonempty_elem in Hpos as (r & Hr & <-). eauto. }
  unfold create_no_show_overview_chart, value_counts. cbv zeta.
  fold count.
  rewrite (stable_sort_unique (descending snd)
             ((λ x, (x, count x)) <$> first_seen (No_show <$> df))
             ((λ x, (x, count x)) <$> [u; v])).
  - simpl. rewrite decide_True by (unfold descending; simpl; lia).
    reflexivity.
  - intros x y Hx Hy. rewrite Hkeys in Hx, Hy.
    unfold descending. simpl in Hx, Hy.
    repeat (apply elem_of_cons in Hx as [-> | Hx]);
      try (by apply not_elem_of_nil in Hx);
      repeat (apply elem_of_cons in Hy as [-> | Hy]);
      try (by apply not_elem_of_nil in Hy);
      simpl; intros; (reflexivity || lia).
  - by rewrite Hkeys.
Qed.

Lemma create_no_show_overview_chart_majority_witness :
  create_no_show_overview_chart three_neighbourhoods =
    Done [("Showed Up", length (filter (λ r, No_show r = "Yes") three_neighbourhoods));
          ("No Show", length (filter (λ r, No_show r = "No") three_neighbourhoods))].
Proof.
  apply (create_no_show_overview_chart_majority three_neighbourhoods "Yes" "No").
  - discriminate.
  - apply (bool_decide_unpack _). vm_compute. exact I.
  - vm_compute. split; repeat constructor.
Defined.

(** X15: the callback answers with the four figures of the filtered view
    when that view has two different outcome labels, and fails with the
    error of the pie chart otherwise, for instance when the controls select
    only patients who came. *)
Theorem update_charts_figures_error (observed : bool) (df : DataFrame)
    (age_group gender : string) (max_waiting_days : Z) :
  let view := filtered_df df age_group gender max_waiting_days in
  (length (remove_dups (No_show <$> view)) ≠ 2%nat →
   update_charts observed df age_group gender max_waiting_days
   = Fail ValueError) ∧
  (length (remove_dups (No_show <$> view)) = 2%nat →
   ∃ pie, create_no_show_overview_chart view = Done pie ∧
     update_charts observed df age_group gender max_waiting_days
     = Done (mkFigures pie (create_age_gender_analysis observed view)
               (create_waiting_time_analysis view)
               (create_medical_conditions_analysis view))).
Proof.
  cbv zeta. unfold update_charts. cbv zeta. simpl.
  set (view := filtered_df df age_group gender max_waiting_days).
  unfold create_no_show_overview_chart, px_pie. cbv zeta.
  rewrite length_fmap, value_counts_length. simpl.
  split; intros H.
  - by rewrite decide_False.
  - rewrite decide_True by done. eexists. split; reflexivity.
Qed.

Lemma update_charts_figures_error_witness :
  update_charts false (load_and_clean_data sample_csv) "all" "F" 10
  = Fail ValueError.
Proof.
  apply (proj1 (update_charts_figures_error false
                  (load_and_clean_data sample_csv) "all" "F" 10)).
  vm_compute. discriminate.
Defined.

(** ** Rates of groups *)

(** The no-show percentage of a non-empty group of rows whose flag is 0 or 1
    is a number between 0 and 100. *)
Lemma rate_bounds (g : DataFrame) :
  g ≠ [] →
  Forall (λ r, NoShow_Binary r = 0 ∨ NoShow_Binary r = 1) g →
  ∃ q, Np.mul (series_mean (NoShow_Binary <$> g)) (Np.of_Z 100) = Np.fin q ∧
       (0 <= q)%Q ∧ (q <= 100)%Q.
Proof.
  intros Hne Hg. pose proof (flag_sum_bounds g Hg) as Hsum.
  assert (Hn : 0 < Z.of_nat (length g)) by (destruct g; [done | simpl; lia]).
  rewrite series_mean_fin by (by destruct g). rewrite length_fmap.
  eexists. split; [reflexivity|].
  apply (ratio_bounds _ _ Hsum Hn).
Qed.

Lemma filter_flag (P : Row → Prop) `{!∀ r, Decision (P r)} (df : DataFrame) :
  Forall (λ r, NoShow_Binary r = 0 ∨ NoShow_Binary r = 1) df →
  Forall (λ r, NoShow_Binary r = 0 ∨ NoShow_Binary r = 1) (filter P df).
Proof.
  intros Hdf. apply list.Forall_forall. intros r [_ Hr]%list_elem_of_filter.
  by apply (proj1 (list.Forall_forall _ _) Hdf).
Qed.

(** ** SMS and scholarship *)

Lemma binary_keys (l : list Z) :
  Forall (λ x, x = 0 ∨ x = 1) l →
  merge_sort Z.le (remove_dups l) = filter (λ v, v ∈ l) [0; 1].
Proof.
  intros Hl.
  apply (StronglySorted_unique_strong Z.le).
  - intros x y _ _ ??. lia.
  - apply (StronglySorted_merge_sort Z.le).
  - apply StronglySorted_filter.
    repeat constructor. lia.
  - rewrite merge_sort_Permutation. apply NoDup_Permutation.
    + apply NoDup_remove_dups.
    + apply list.NoDup_filter, list.NoDup_cons.
      split; [|apply NoDup_singleton]. by intros ?%list_elem_of_singleton.
    + intros x. rewrite elem_of_remove_dups, list_elem_of_filter.
      split; [|tauto]. intros Hx. split; [done|].
      destruct (proj1 (list.Forall_forall _ _) Hl x Hx) as [-> | ->];
        repeat constructor.
Qed.

(** The rates of a flag that is 0 or 1: that of the rows without the flag,
    if there are any, then that of the rows with it, if there are any. *)
Lemma flag_rates_binary (column : Row → Z) (df : DataFrame) :
  Forall (λ r, column r = 0 ∨ column r = 1) df →
  flag_rates column df
  = (λ v, (v, condition_rate column v df))
    <$> filter (λ v, v ∈ column <$> df) [0; 1].
Proof.
  intros Hdf. unfold flag_rates, groupby.
  rewrite binary_keys by (by apply Forall_fmap).
  by rewrite <- list_fmap_compose.
Qed.

(** X16: the bars of the SMS chart are named by position, "No SMS" first, and
    their heights are the rates of the flag values that occur, in ascending
    order.  With patients of both kinds the names fit; when every patient
    received an SMS there is one height only, their rate, and it stands
    under the first name, "No SMS". *)
Theorem create_sms_scholarship_analysis_sms (df : DataFrame) :
  Forall (λ r, SMS_received r = 0 ∨ SMS_received r = 1) df →
  let sms := (create_sms_scholarship_analysis df).1 in
  sms.1 = ["No SMS"; "SMS Received"] ∧
  sms.2 = (λ v, condition_rate SMS_received v df)
          <$> filter (λ v, v ∈ SMS_received <$> df) [0; 1] ∧
  (0 ∈ SMS_received <$> df → 1 ∈ SMS_received <$> df →
   sms.2 = [condition_rate SMS_received 0 df; condition_rate SMS_received 1 df]) ∧
  (0 ∉ SMS_received <$> df → 1 ∈ SMS_received <$> df →
   sms.2 = [condition_rate SMS_received 1 df]).
Proof.
  intros Hdf. cbv zeta. unfold create_sms_scholarship_analysis. simpl.
  rewrite (flag_rates_binary SMS_received df Hdf), <- list_fmap_compose.
  split; [done|]. split; [done|].
  split; intros H0 H1; rewrite !filter_cons, filter_nil;
    repeat case_decide; done.
Qed.

Lemma create_sms_scholarship_analysis_sms_witness :
  (create_sms_scholarship_analysis (load_and_clean_data sample_csv)).1.2
  = (λ v, condition_rate SMS_received v (load_and_clean_data sample_csv))
    <$> filter (λ v, v ∈ SMS_received <$> load_and_clean_data sample_csv) [0; 1].
Proof.
  apply (create_sms_scholarship_analysis_sms (load_and_clean_data sample_csv)).
  apply (bool_decide_unpack _). vm_compute. exact I.
Defined.

(** X17: every height of the SMS chart and of the scholarship chart of a
    table whose no-show flag is 0 or 1 is a number between 0 and 100: a
    group that [groupby] lists is never empty, so no height is NaN. *)
Theorem create_sms_scholarship_analysis_bounds (df : DataFrame) :
  Forall (λ r, NoShow_Binary r = 0 ∨ NoShow_Binary r = 1) df →
  let figure := create_sms_scholarship_analysis df in
  Forall (λ y, ∃ q, y = Np.fin q ∧ (0 <= q)%Q ∧ (q <= 100)%Q)
         (figure.1.2 ++ figure.2.2).
Proof.
  intros Hdf. cbv zeta. unfold create_sms_scholarship_analysis. simpl.
  assert (Hrates : ∀ column : Row → Z,
    Forall (λ y, ∃ q, y = Np.fin q ∧ (0 <= q)%Q ∧ (q <= 100)%Q)
           (flag_rates column df).*2).
  { intros column. unfold flag_rates, groupby.
    rewrite <- !list_fmap_compose. apply Forall_fmap.
    apply list.Forall_forall. intros k Hk. simpl.
    rewrite merge_sort_Permutation, elem_of_remove_dups in Hk.
    apply list_elem_of_fmap in Hk as (r & -> & Hr).
    apply rate_bounds; [|by apply filter_flag].
    intros Hnil. eapply (filter_nil_not_elem_of _ _ r Hnil); done. }
  apply Forall_app. split; apply Hrates.
Qed.

Lemma create_sms_scholarship_analysis_bounds_witness :
  let figure := create_sms_scholarship_analysis (load_and_clean_data sample_csv) in
  Forall (λ y, ∃ q, y = Np.fin q ∧ (0 <= q)%Q ∧ (q <= 100)%Q)
         (figure.1.2 ++ figure.2.2).
Proof.
  apply (create_sms_scholarship_analysis_bounds (load_and_clean_data sample_csv)).
  apply NoShow_Binary_flag.
Defined.

(** ** Age group by gender *)

Lemma length_pairs (age_group : string) (genders : list string) :
  length (genders ≫= λ gender, [(age_group, gender)]) = length genders.
Proof.
  induction genders as [|g genders IH]; [reflexivity|].
  rewrite bind_cons, length_app, IH. reflexivity.
Qed.

(** X18: each row of the age-by-gender table counts the rows of its age
    group and gender.  A row without patients exists only when [groupby]
    lists the unobserved combinations, and its rate is NaN; the rate of any
    other row of a table whose no-show flag is 0 or 1 is a number between 0
    and 100.  With the unobserved combinations listed the table has four
    rows for each gender that occurs. *)
Theorem create_age_gender_analysis_rows (observed : bool) (df : DataFrame) :
  Forall (λ r, NoShow_Binary r = 0 ∨ NoShow_Binary r = 1) df →
  Z.of_nat (length df) < 2 ^ 63 →
  Forall (λ s,
      let group := filter (λ r, AgeGroup r = AgeGender.AgeGroup s ∧
                                Gender r = AgeGender.Gender s) df in
      AgeGender.count s = length group ∧
      (group = [] → observed = false ∧ AgeGender.NoShowRate s = Np.nan) ∧
      (group ≠ [] → ∃ q, AgeGender.NoShowRate s = Np.fin q ∧
                         (0 <= q)%Q ∧ (q <= 100)%Q))
    (create_age_gender_analysis observed df) ∧
  (observed = false →
   length (create_age_gender_analysis observed df)
   = (4 * length (remove_dups (Gender <$> df)))%nat).
Proof.
  intros Hdf Hlen. split.
  - unfold create_age_gender_analysis. cbv zeta.
    apply Forall_fmap, list.Forall_forall. intros k Hk. simpl.
    set (group := filter (λ r, AgeGroup r = k.1 ∧ Gender r = k.2) df).
    split; [reflexivity|]. split.
    + intros Hnil. split.
      * destruct observed; [|done].
        apply list_elem_of_filter in Hk as [Hex _].
        apply list.Exists_exists in Hex as (r & Hr & Hk).
        exfalso. by apply (filter_nil_not_elem_of _ _ r Hnil).
      * rewrite Hnil. reflexivity.
    + intros Hne.
      pose proof (flag_sum_bounds group (filter_flag _ df Hdf)) as Hsum.
      assert (Hle : (length group ≤ length df)%nat) by apply length_filter.
      assert (Hn : 0 < Z.of_nat (length group))
        by (destruct group; [done | simpl; lia]).
      rewrite wrap64_small by lia.
      unfold Np.div, Np.of_Z.
      rewrite (Qzero_inject_Z (Z.of_nat (length group))) by lia. simpl.
      eexists. split; [reflexivity|]. by apply ratio_bounds.
  - intros ->. unfold create_age_gender_analysis. cbv zeta.
    rewrite length_fmap. unfold age_labels.
    rewrite !bind_cons. change ([] ≫= _) with (@nil (string * string)).
    rewrite !length_app, !length_pairs.
    rewrite (Permutation_length (merge_sort_Permutation _ _)). simpl. lia.
Qed.

Lemma create_age_gender_analysis_rows_witness :
  length (create_age_gender_analysis false (load_and_clean_data sample_csv))
  = (4 * length (remove_dups (Gender <$> load_and_clean_data sample_csv)))%nat.
Proof.
  apply (create_age_gender_analysis_rows false (load_and_clean_data sample_csv)).
  - apply NoShow_Binary_flag.
  - vm_compute. reflexivity.
  - reflexivity.
Defined.

(** ** Medical conditions, further *)

Lemma condition_rate_filter (column : Row → Z) (v : Z) (P : Row → Prop)
    `{!∀ r, Decision (P r)} (df : DataFrame) :
  (∀ r, column r = v → P r) →
  condition_rate column v (filter P df) = condition_rate column v df.
Proof.
  intros HP. unfold condition_rate.
  rewrite (list_filter_filter_l (λ r, column r = v) P); [done|exact HP].
Qed.

(** X19: the two bars of a condition are computed from the patients whose
    flag is 0 or 1: a patient with another value, such as a handicap level
    from 2 to 4, counts neither as with nor as without the condition. *)
Theorem create_medical_conditions_analysis_levels (df : DataFrame) :
  filter (λ s, Condition.Condition s = "Handcap")
         (create_medical_conditions_analysis df)
  = filter (λ s, Condition.Condition s = "Handcap")
      (create_medical_conditions_analysis
         (filter (λ r, Handcap r = 0 ∨ Handcap r = 1) df)).
Proof.
  unfold create_medical_conditions_analysis, conditions. simpl.
  rewrite !filter_cons, !filter_nil. simpl.
  repeat (case_decide; [discriminate|]).
  repeat (case_decide; [|done]).
  by rewrite !(condition_rate_filter Handcap _ (λ r, Handcap r = 0 ∨ Handcap r = 1))
    by auto.
Qed.

(** X20: every rate of the medical-conditions table of a table whose no-show
    flag is 0 or 1 is NaN or a number between 0 and 100. *)
Theorem create_medical_conditions_analysis_bounds (df : DataFrame) :
  Forall (λ r, NoShow_Binary r = 0 ∨ NoShow_Binary r = 1) df →
  Forall (λ s, Condition.NoShowRate s = Np.nan ∨
               ∃ q, Condition.NoShowRate s = Np.fin q ∧
                    (0 <= q)%Q ∧ (q <= 100)%Q)
         (create_medical_conditions_analysis df).
Proof.
  intros Hdf.
  assert (Hrate : ∀ (column : Row → Z) v,
    condition_rate column v df = Np.nan ∨
    ∃ q, condition_rate column v df = Np.fin q ∧ (0 <= q)%Q ∧ (q <= 100)%Q).
  { intros column v. unfold condition_rate.
    destruct (decide (filter (λ r, column r = v) df = [])) as [->|Hne];
      [by left|].
    right. apply rate_bounds; [done|]. by apply filter_flag. }
  unfold create_medical_conditions_analysis, conditions. simpl.
  repeat (apply List.Forall_cons; [apply Hrate|]). apply List.Forall_nil.
Qed.

Lemma create_medical_conditions_analysis_bounds_witness :
  Forall (λ s, Condition.NoShowRate s = Np.nan ∨
               ∃ q, Condition.NoShowRate s = Np.fin q ∧
                    (0 <= q)%Q ∧ (q <= 100)%Q)
         (create_medical_conditions_analysis (load_and_clean_data sample_csv)).
Proof.
  apply create_medical_conditions_analysis_bounds, NoShow_Binary_flag.
Defined.

(** ** Sizes of groups *)

(** The groups of a table by a key share out its rows. *)
Lemma group_sizes_sum {K : Type} `{EqDecision K} (key : Row → K)
    (keys : list K) (df : DataFrame) :
  NoDup keys → (∀ r, r ∈ df → key r ∈ keys) →
  sum_list ((λ k, length (filter (λ r, key r = k) df)) <$> keys) = length df.
Proof.
  revert df. induction keys as [|k keys IH]; intros df Hnd Hcover.
  - destruct df as [|r df]; [reflexivity|].
    destruct (not_elem_of_nil (key r)). apply Hcover, list_elem_of_here.
  - apply list.NoDup_cons in Hnd as [Hk Hnd].
    rewrite fmap_cons. simpl.
    rewrite <- (Permutation_length (filter_app_complement (λ r, key r = k) df)).
    rewrite length_app. f_equal.
    rewrite <- (IH (filter (λ r, ¬ key r = k) df) Hnd).
    + f_equal. apply list_fmap_ext. intros _ k' Hk'%list_elem_of_lookup_2.
      f_equal. symmetry. apply list_filter_filter_l. by intros r -> ->.
    + intros r [Hr Hin]%list_elem_of_filter.
      apply Hcover, elem_of_cons in Hin as [?|?]; done.
Qed.

Lemma sum_list_Permutation (l l' : list nat) :
  l ≡ₚ l' → sum_list l = sum_list l'.
Proof. induction 1; simpl; lia. Qed.

Lemma fmap_name_row {A K : Type} (name : A → K) (row : K → A) (keys : list K) :
  (∀ k, name (row k) = k) → name <$> (row <$> keys) = keys.
Proof.
  intros H. induction keys as [|k keys IH]; [reflexivity|].
  by rewrite !fmap_cons, H, IH.
Qed.

(** X21: the neighbourhood table shares out the rows of the table: every
    neighbourhood listed has at least one appointment, no neighbourhood is
    listed twice and the numbers of appointments add up to the number of
    rows. *)
Theorem neighborhood_stats_totals (df : DataFrame) :
  NoDup (Nbh.Neighbourhood <$> neighborhood_stats df) ∧
  Forall (λ s, (0 < Nbh.TotalAppointments s)%nat) (neighborhood_stats df) ∧
  sum_list (Nbh.TotalAppointments <$> neighborhood_stats df) = length df.
Proof.
  rewrite neighborhood_stats_rows.
  set (keys := merge_sort String.le (remove_dups (Neighbourhood <$> df))).
  assert (Hnd : NoDup keys)
    by (unfold keys; rewrite merge_sort_Permutation; apply NoDup_remove_dups).
  assert (Hin : ∀ k, k ∈ keys ↔ k ∈ Neighbourhood <$> df)
    by (intros k; unfold keys; by rewrite merge_sort_Permutation, elem_of_remove_dups).
  split; [|split].
  - by rewrite fmap_name_row.
  - apply Forall_fmap, list.Forall_forall. intros k Hk. simpl.
    apply Hin, list_elem_of_fmap in Hk as (r & -> & Hr).
    destruct (filter (λ r0, Neighbourhood r0 = Neighbourhood r) df) eqn:Hf;
      [|simpl; lia].
    by destruct (filter_nil_not_elem_of _ _ r Hf).
  - rewrite <- list_fmap_compose.
    apply (group_sizes_sum Neighbourhood keys df Hnd).
    intros r Hr. apply Hin. by apply list_elem_of_fmap_2.
Qed.

(** X22: every rate of the neighbourhood table of a table whose no-show flag
    is 0 or 1 is a number between 0 and 100, never NaN. *)
Theorem neighborhood_stats_bounds (df : DataFrame) :
  Forall (λ r, NoShow_Binary r = 0 ∨ NoShow_Binary r = 1) df →
  Forall (λ s, ∃ q, Nbh.NoShowRate s = Np.fin q ∧ (0 <= q)%Q ∧ (q <= 100)%Q)
         (neighborhood_stats df).
Proof.
  intros Hdf. rewrite neighborhood_stats_rows.
  apply Forall_fmap, list.Forall_forall. intros k Hk. simpl.
  rewrite merge_sort_Permutation, elem_of_remove_dups in Hk.
  apply list_elem_of_fmap in Hk as (r & -> & Hr).
  apply rate_bounds; [|by apply filter_flag].
  intros Hnil. by destruct (filter_nil_not_elem_of _ _ r Hnil).
Qed.

Lemma neighborhood_stats_bounds_witness :
  Forall (λ s, ∃ q, Nbh.NoShowRate s = Np.fin q ∧ (0 <= q)%Q ∧ (q <= 100)%Q)
         (neighborhood_stats three_neighbourhoods).
Proof. apply neighborhood_stats_bounds, NoShow_Binary_flag. Defined.

(** X23: when the table has at most [top_n] neighbourhoods the figure lists
    every one of them, ordered by descending volume. *)
Theorem create_neighborhood_analysis_all (df : DataFrame) (top_n : option nat) :
  (length (neighborhood_stats df) ≤ default 15 top_n)%nat →
  create_neighborhood_analysis df top_n ≡ₚ neighborhood_stats df ∧
  StronglySorted (descending Nbh.TotalAppointments)
                 (create_neighborhood_analysis df top_n).
Proof.
  intros Hlen. unfold create_neighborhood_analysis, nlargest. cbv zeta.
  assert (Hge : (length (stable_sort (descending Nbh.TotalAppointments)
                           (neighborhood_stats df)) ≤ default 15 top_n)%nat)
    by (by rewrite (Permutation_length (stable_sort_Permutation _ _))).
  rewrite (take_ge _ _ Hge).
  split; [apply stable_sort_Permutation|].
  exact (stable_sort_StronglySorted (descending Nbh.TotalAppointments) _).
Qed.

Lemma create_neighborhood_analysis_all_witness :
  create_neighborhood_analysis three_neighbourhoods None
    ≡ₚ neighborhood_stats three_neighbourhoods ∧
  StronglySorted (descending Nbh.TotalAppointments)
                 (create_neighborhood_analysis three_neighbourhoods None).
Proof.
  apply (create_neighborhood_analysis_all three_neighbourhoods None).
  vm_compute. repeat constructor.
Defined.

(** ** Day of week, counts *)

Lemma cleaned_day_rows (csv : list Csv.row) :
  create_day_of_week_analysis (load_and_clean_data csv) =
  day_row (load_and_clean_data csv) <$>
    filter (λ d, d ∈ DayOfWeekName <$> load_and_clean_data csv) day_order.
Proof.
  rewrite create_day_of_week_analysis_rows.
  rewrite (filter_Forall_nil (λ k, k ∉ day_order)); [by rewrite app_nil_r|].
  apply list.Forall_forall. intros k Hk Hnot. apply Hnot.
  rewrite merge_sort_Permutation, elem_of_remove_dups in Hk.
  apply list_elem_of_fmap in Hk as (r & -> & Hr).
  by apply DayOfWeekName_day_order in Hr.
Qed.

(** X24: in the day-of-week table of a cleaned table the three columns fit
    together: on each day listed there is at least one appointment, the
    number of no-shows lies between 0 and the number of appointments, and
    the rate is 100 times their quotient; the numbers of appointments of the
    days add up to the number of rows. *)
Theorem create_day_of_week_analysis_counts (csv : list Csv.row) :
  let df := load_and_clean_data csv in
  Z.of_nat (length df) < 2 ^ 63 →
  Forall (λ s, ∃ k,
      (0 < Day.TotalAppointments s)%nat ∧
      Day.NoShows s = NpInt64 k ∧
      0 ≤ k ≤ Z.of_nat (Day.TotalAppointments s) ∧
      Day.NoShowRate s
      = Np.fin (inject_Z k / inject_Z (Z.of_nat (Day.TotalAppointments s)) * 100))
    (create_day_of_week_analysis df) ∧
  sum_list (Day.TotalAppointments <$> create_day_of_week_analysis df) = length df.
Proof.
  cbv zeta. intros Hlen. rewrite cleaned_day_rows.
  set (df := load_and_clean_data csv) in *.
  split.
  - apply Forall_fmap, list.Forall_forall.
    intros d [Hd _]%list_elem_of_filter. simpl.
    apply list_elem_of_fmap in Hd as (r & -> & Hr).
    set (group := filter (λ r0, DayOfWeekName r0 = DayOfWeekName r) df).
    assert (Hne : group ≠ []).
    { intros Hnil. by destruct (filter_nil_not_elem_of _ _ r Hnil). }
    assert (Hflag : Forall (λ r, NoShow_Binary r = 0 ∨ NoShow_Binary r = 1) group)
      by apply filter_flag, NoShow_Binary_flag.
    pose proof (flag_sum_bounds group Hflag) as Hsum.
    assert (Hle : (length group ≤ length df)%nat) by apply length_filter.
    exists (foldr Z.add 0 (NoShow_Binary <$> group)).
    split; [destruct group; [done | simpl; lia]|].
    split; [unfold series_sum; by rewrite wrap64_small by lia|].
    split; [done|].
    rewrite series_mean_fin by (by destruct group).
    by rewrite length_fmap.
  - rewrite <- list_fmap_compose.
    apply (group_sizes_sum DayOfWeekName).
    + apply list.NoDup_filter, day_order_NoDup.
    + intros r Hr. apply list_elem_of_filter. split.
      * by apply list_elem_of_fmap_2.
      * by apply (DayOfWeekName_day_order csv).
Qed.

Lemma create_day_of_week_analysis_counts_witness :
  sum_list (Day.TotalAppointments
              <$> create_day_of_week_analysis (load_and_clean_data sample_csv))
  = length (load_and_clean_data sample_csv).
Proof.
  apply (create_day_of_week_analysis_counts sample_csv).
  vm_compute. reflexivity.
Defined.


(** ** The demo report *)

Lemma lookup_label_rates (column : Csv.row → option Z) (df : list Csv.row)
    (label : Z) :
  (label ∈ omap column df →
   ∃ y, lookup_label label (raw_flag_rates column df) = Done y) ∧
  (label ∉ omap column df →
   lookup_label label (raw_flag_rates column df) = Fail KeyError).
Proof.
  unfold lookup_label, raw_flag_rates. split; intros Hl.
  - destruct (list_find_elem_of (λ p : Z * Np.float, p.1 = label)
               ((λ k, (k, Np.mul (series_mean (Derived.NoShow_Binary
                          <$> filter (λ c, column c = Some k) df)) (Np.of_Z 100)))
                <$> merge_sort Z.le (remove_dups (omap column df)))
               (label, Np.mul (series_mean (Derived.NoShow_Binary
                          <$> filter (λ c, column c = Some label) df)) (Np.of_Z 100)))
      as [[i p] Hfind]; [|done|].
    + apply list_elem_of_fmap. exists label. split; [done|].
      by rewrite merge_sort_Permutation, elem_of_remove_dups.
    + rewrite Hfind. eauto.
  - rewrite (proj2 (list_find_None _ _)); [done|].
    apply Forall_fmap, list.Forall_forall. intros k Hk. simpl. intros ->.
    by rewrite merge_sort_Permutation, elem_of_remove_dups in Hk.
Qed.

(** The difference of the two date columns. *)
Lemma date_columns_subtract (tz_aware : bool) (df : list Csv.row) :
  (tz_aware = true →
   (omap Csv.ScheduledDay df = [] ↔ omap Csv.AppointmentDay df = [])) →
  tz_aware && bool_decide (¬ (omap Csv.ScheduledDay df = []
                              ↔ omap Csv.AppointmentDay df = [])) = false.
Proof.
  intros Htz. destruct tz_aware; [|done]. simpl.
  apply bool_decide_eq_false. intros Hno. by apply Hno, Htz.
Qed.

Lemma date_columns_TypeError (tz_aware : bool) (df : list Csv.row) :
  tz_aware = true →
  ¬ (omap Csv.ScheduledDay df = [] ↔ omap Csv.AppointmentDay df = []) →
  analyze_medical_appointments tz_aware df = Fail TypeError.
Proof.
  intros -> Hno. unfold analyze_medical_appointments.
  by rewrite andb_true_l, bool_decide_eq_true_2.
Qed.

(** The report of a table with at least one appointment date, up to the four
    look-ups: nothing else in it can fail. *)
Lemma analyze_medical_appointments_dated (tz_aware : bool)
    (df : list Csv.row) :
  (tz_aware = true →
   (omap Csv.ScheduledDay df = [] ↔ omap Csv.AppointmentDay df = [])) →
  omap Csv.AppointmentDay df ≠ [] →
  ∃ k : Np.float → Np.float → Np.float → Np.float → Report,
    analyze_medical_appointments tz_aware df =
      (no_sms ← lookup_label 0 (raw_flag_rates Csv.SMS_received df);
       with_sms ← lookup_label 1 (raw_flag_rates Csv.SMS_received df);
       no_scholarship ← lookup_label 0 (raw_flag_rates Csv.Scholarship df);
       with_scholarship ← lookup_label 1 (raw_flag_rates Csv.Scholarship df);
       Done (k no_sms with_sms no_scholarship with_scholarship)) ∧
    ∀ a b c d,
      report_total (k a b c d) = length df ∧
      report_no_show_rate (k a b c d)
      = NpFloat64 (Np.mul (Np.div (Np.of_Z (wrap64 (foldr Z.add 0
                                      (Derived.NoShow_Binary <$> df))))
                                  (Np.of_Z (Z.of_nat (length df))))
                          (Np.of_Z 100)) ∧
      report_avg_age (k a b c d) = series_mean (omap Csv.Age df) ∧
      report_avg_waiting (k a b c d) = series_mean (omap Derived.DaysWaiting df) ∧
      report_same_day (k a b c d)
      = length (filter (λ c, Derived.DaysWaiting c = Some 0) df) ∧
      report_same_day_no_show (k a b c d)
      = NpFloat64
          (Np.mul
             (Np.div
                (Np.of_Z (wrap64 (foldr Z.add 0
                   (Derived.NoShow_Binary
                    <$> filter (λ c, Derived.DaysWaiting c = Some 0) df))))
                (Np.of_Z (Z.of_nat
                   (length (filter (λ c, Derived.DaysWaiting c = Some 0) df)))))
             (Np.of_Z 100)).
Proof.
  intros Htz Hdated.
  assert (Hn : bool_decide (Z.of_nat (length df) = 0) = false).
  { apply bool_decide_eq_false. destruct df; [done | simpl; lia]. }
  unfold analyze_medical_appointments.
  rewrite (date_columns_subtract tz_aware df Htz).
  destruct (omap Csv.AppointmentDay df) as [|t ts]; [done|].
  cbn -[raw_flag_rates lookup_label Np.div Np.mul Np.sub series_mean filter
        Z.of_nat wrap64 length foldr].
  eexists (λ a b c d, _). split.
  - repeat (destruct (lookup_label _ _); [|reflexivity];
      cbn -[raw_flag_rates lookup_label Np.div Np.mul Np.sub series_mean filter
            Z.of_nat wrap64 length foldr]).
    unfold py_truediv.
    cbn -[raw_flag_rates lookup_label Np.div Np.mul Np.sub series_mean filter
          Z.of_nat wrap64 length foldr].
    rewrite Hn. reflexivity.
  - intros a b c d. cbn -[Np.div Np.mul Np.sub series_mean filter
          Z.of_nat wrap64 length foldr]. repeat split; reflexivity.
Qed.

Lemma analyze_medical_appointments_cases (tz_aware : bool)
    (df : list Csv.row) :
  let one_sided :=
    tz_aware = true ∧
    ¬ (omap Csv.ScheduledDay df = [] ↔ omap Csv.AppointmentDay df = []) in
  let dated := omap Csv.AppointmentDay df ≠ [] in
  let flags :=
    0 ∈ omap Csv.SMS_received df ∧ 1 ∈ omap Csv.SMS_received df ∧
    0 ∈ omap Csv.Scholarship df ∧ 1 ∈ omap Csv.Scholarship df in
  (one_sided ∧ analyze_medical_appointments tz_aware df = Fail TypeError) ∨
  (¬ one_sided ∧ ¬ dated ∧
   analyze_medical_appointments tz_aware df = Fail ValueError) ∨
  (¬ one_sided ∧ dated ∧ ¬ flags ∧
   analyze_medical_appointments tz_aware df = Fail KeyError) ∨
  (¬ one_sided ∧ dated ∧ flags ∧
   ∃ report, analyze_medical_appointments tz_aware df = Done report).
Proof.
  cbv zeta.
  destruct (decide (tz_aware = true ∧
                    ¬ (omap Csv.ScheduledDay df = []
                       ↔ omap Csv.AppointmentDay df = []))) as [[Htz Hno]|Hsub].
  { left. split; [done|]. by apply date_columns_TypeError. }
  right.
  assert (Htz : tz_aware = true →
                (omap Csv.ScheduledDay df = [] ↔ omap Csv.AppointmentDay df = [])).
  { intros Htz.
    destruct (decide (omap Csv.ScheduledDay df = []
                      ↔ omap Csv.AppointmentDay df = [])); [done|tauto]. }
  destruct (decide (omap Csv.AppointmentDay df = [])) as [Hnil|Hdated].
  { left. split; [done|]. split; [by intros H|].
    unfold analyze_medical_appointments.
    rewrite (date_columns_subtract tz_aware df Htz). by rewrite Hnil. }
  right.
  destruct (analyze_medical_appointments_dated tz_aware df Htz Hdated)
    as (k & -> & _).
  destruct (lookup_label_rates Csv.SMS_received df 0) as [Hs0 Hs0'].
  destruct (lookup_label_rates Csv.SMS_received df 1) as [Hs1 Hs1'].
  destruct (lookup_label_rates Csv.Scholarship df 0) as [Hc0 Hc0'].
  destruct (lookup_label_rates Csv.Scholarship df 1) as [Hc1 Hc1'].
  destruct (decide (0 ∈ omap Csv.SMS_received df)) as [H1|H1];
    [destruct (Hs0 H1) as [y1 ->] | rewrite (Hs0' H1); left; tauto].
  destruct (decide (1 ∈ omap Csv.SMS_received df)) as [H2|H2];
    [destruct (Hs1 H2) as [y2 ->] | rewrite (Hs1' H2); left; tauto].
  destruct (decide (0 ∈ omap Csv.Scholarship df)) as [H3|H3];
    [destruct (Hc0 H3) as [y3 ->] | rewrite (Hc0' H3); left; tauto].
  destruct (decide (1 ∈ omap Csv.Scholarship df)) as [H4|H4];
    [destruct (Hc1 H4) as [y4 ->] | rewrite (Hc1' H4); left; tauto].
  right. split; [done|]. split; [done|]. split; [done|].
  eexists. reflexivity.
Qed.

(** The figures of a report that was produced. *)
Lemma analyze_medical_appointments_Done (tz_aware : bool) (df : list Csv.row)
    (report : Report) :
  analyze_medical_appointments tz_aware df = Done report →
  report_total report = length df ∧
  report_no_show_rate report
  = NpFloat64 (Np.mul (Np.div (Np.of_Z (wrap64 (foldr Z.add 0
                                  (Derived.NoShow_Binary <$> df))))
                              (Np.of_Z (Z.of_nat (length df))))
                      (Np.of_Z 100)) ∧
  report_avg_age report = series_mean (omap Csv.Age df) ∧
  report_avg_waiting report = series_mean (omap Derived.DaysWaiting df) ∧
  report_same_day report
  = length (filter (λ c, Derived.DaysWaiting c = Some 0) df) ∧
  report_same_day_no_show report
  = NpFloat64
      (Np.mul
         (Np.div
            (Np.of_Z (wrap64 (foldr Z.add 0
               (Derived.NoShow_Binary
                <$> filter (λ c, Derived.DaysWaiting c = Some 0) df))))
            (Np.of_Z (Z.of_nat
               (length (filter (λ c, Derived.DaysWaiting c = Some 0) df)))))
         (Np.of_Z 100)).
Proof.
  intros Hreport.
  destruct (analyze_medical_appointments_cases tz_aware df)
    as [[_ H] | [(_ & _ & H) | [(_ & _ & _ & H) | (Hsub & Hdated & _)]]];
    try (rewrite H in Hreport; discriminate Hreport).
  assert (Htz : tz_aware = true →
                (omap Csv.ScheduledDay df = [] ↔ omap Csv.AppointmentDay df = [])).
  { intros Htz.
    destruct (decide (omap Csv.ScheduledDay df = []
                      ↔ omap Csv.AppointmentDay df = [])); [done|tauto]. }
  destruct (analyze_medical_appointments_dated tz_aware df Htz Hdated)
    as (k & Hk & Hfields).
  rewrite Hk in Hreport.
  destruct (lookup_label 0 (raw_flag_rates Csv.SMS_received df)) as [a|];
    [|discriminate Hreport].
  destruct (lookup_label 1 (raw_flag_rates Csv.SMS_received df)) as [b|];
    [|discriminate Hreport].
  destruct (lookup_label 0 (raw_flag_rates Csv.Scholarship df)) as [c|];
    [|discriminate Hreport].
  destruct (lookup_label 1 (raw_flag_rates Csv.Scholarship df)) as [d|];
    [|discriminate Hreport].
  cbn in Hreport. injection Hreport as <-. apply Hfields.
Qed.


Lemma length_omap_le {A B : Type} (f : A → option B) (l : list A) :
  (length (omap f l) ≤ length l)%nat.
Proof.
  induction l as [|x l IH]; [done|].
  rewrite omap_cons. destruct (f x); simpl; lia.
Qed.

(** When [omap] drops nothing, a column of the result is the column of the
    input. *)
Lemma omap_full {A B C : Type} (f : A → option B) (g : B → C) (h : A → C)
    (l : list A) :
  length (omap f l) = length l →
  (∀ x y, f x = Some y → g y = h x) →
  g <$> omap f l = h <$> l.
Proof.
  intros Hlen Hgh. induction l as [|x l IH]; [done|].
  rewrite omap_cons in Hlen |- *. pose proof (length_omap_le f l).
  destruct (f x) as [y|] eqn:Hx.
  - rewrite !length_cons in Hlen. injection Hlen as Hlen.
    by rewrite !fmap_cons, (Hgh x y Hx), IH.
  - rewrite length_cons in Hlen. lia.
Qed.

Lemma omap_full_omap {A B C : Type} (f : A → option B) (g : B → C)
    (h : A → option C) (l : list A) :
  length (omap f l) = length l →
  (∀ x y, f x = Some y → h x = Some (g y)) →
  g <$> omap f l = omap h l.
Proof.
  intros Hlen Hgh. induction l as [|x l IH]; [done|].
  rewrite (omap_cons f) in Hlen |- *. rewrite (omap_cons h).
  pose proof (length_omap_le f l).
  destruct (f x) as [y|] eqn:Hx.
  - rewrite !length_cons in Hlen. injection Hlen as Hlen.
    by rewrite fmap_cons, (Hgh x y Hx), IH.
  - rewrite length_cons in Hlen. lia.
Qed.

Lemma clean_row_Some (c : Csv.row) (r : Row) :
  clean_row c = Some r → dropna c = Some r.
Proof.
  unfold clean_row. destruct (dropna c) as [r'|]; simpl; [|done].
  case_decide; [|done]. congruence.
Qed.

(** X26: when the cleaning of the dashboard drops no row of the file, the
    report of the demo script and the summary of the dashboard agree on the
    number of appointments, the no-show rate, the average age and the average
    waiting time.  (The script cleans nothing: the rows that the dashboard
    drops count in its figures.) *)
Theorem demo_agrees_with_dashboard (tz_aware : bool) (csv : list Csv.row)
    (report : Report) (s : Summary) :
  length (load_and_clean_data csv) = length csv →
  analyze_medical_appointments tz_aware csv = Done report →
  calculate_summary_statistics (load_and_clean_data csv) = Ok s →
  total_appointments s = PyInt (Z.of_nat (report_total report)) ∧
  no_show_rate s = report_no_show_rate report ∧
  avg_age s = report_avg_age report ∧
  avg_waiting_days s = report_avg_waiting report.
Proof.
  intros Hlen Hreport Hs.
  rewrite calculate_summary_statistics_Ok in Hs. injection Hs as <-.
  rewrite load_and_clean_data_omap in *.
  assert (Hflag : NoShow_Binary <$> omap clean_row csv = Derived.NoShow_Binary <$> csv).
  { apply omap_full; [done|]. intros c r Hc%clean_row_Some.
    by apply dropna_Some in Hc as (_ & _ & _ & _ & _ & _ & _ & _ & ->). }
  assert (Hage : Age <$> omap clean_row csv = omap Csv.Age csv).
  { apply omap_full_omap; [done|]. intros c r Hc%clean_row_Some.
    by apply dropna_Some in Hc as (-> & _). }
  assert (Hwait : DaysWaiting <$> omap clean_row csv = omap Derived.DaysWaiting csv).
  { apply omap_full_omap; [done|]. intros c r Hc%clean_row_Some.
    by apply dropna_Some in Hc as (_ & _ & _ & _ & -> & _). }
  simpl. rewrite Hflag, Hage, Hwait, Hlen.
  destruct (analyze_medical_appointments_Done tz_aware csv report Hreport)
    as (-> & -> & -> & -> & _).
  done.
Qed.

Lemma demo_agrees_with_dashboard_witness :
  ∃ report s,
    analyze_medical_appointments true demo_csv = Done report ∧
    calculate_summary_statistics (load_and_clean_data demo_csv) = Ok s ∧
    total_appointments s = PyInt (Z.of_nat (report_total report)) ∧
    no_show_rate s = report_no_show_rate report ∧
    avg_age s = report_avg_age report ∧
    avg_waiting_days s = report_avg_waiting report.
Proof.
  destruct (analyze_medical_appointments true demo_csv) as [report|] eqn:Hreport;
    [|vm_compute in Hreport; discriminate Hreport].
  destruct (calculate_summary_statistics (load_and_clean_data demo_csv))
    as [s|] eqn:Hs; [|vm_compute in Hs; discriminate Hs].
  exists report, s. split; [done|]. split; [done|].
  apply (demo_agrees_with_dashboard true demo_csv report s); [|done|done].
  vm_compute. reflexivity.
Defined.

Lemma DaysWaiting_zero (c : Csv.row) :
  Derived.DaysWaiting c = Some 0 ↔ booked_within_a_day c.
Proof.
  unfold Derived.DaysWaiting, booked_within_a_day, timedelta_days.
  destruct (Csv.AppointmentDay c) as [a|], (Csv.ScheduledDay c) as [s|]; simpl;
    try (split; [discriminate | tauto]).
  assert (Hday : 0 < ns_per_day) by done.
  split.
  - intros [= Hq]. apply Z.div_small_iff in Hq; lia.
  - intros [Hs Ha]. f_equal. apply Z.div_small. lia.
Qed.

(** X27: the rows that a report counts as same-day appointments are those
    booked at the time stamp of the appointment or less than 24 hours before
    it: a booking made later on the day of an appointment stamped at midnight
    is not among them.  When there is no such row the same-day no-show rate
    of the report is [nan]. *)
Theorem same_day_appointments (tz_aware : bool) (df : list Csv.row)
    (report : Report) :
  analyze_medical_appointments tz_aware df = Done report →
  report_same_day report = length (filter booked_within_a_day df) ∧
  (report_same_day report = 0%nat →
   report_same_day_no_show report = NpFloat64 Np.nan).
Proof.
  intros Hreport.
  destruct (analyze_medical_appointments_Done tz_aware df report Hreport)
    as (_ & _ & _ & _ & -> & ->).
  split.
  - f_equal. apply list_filter_iff. intros x. apply DaysWaiting_zero.
  - intros Hnone. apply length_zero_iff_nil in Hnone. by rewrite Hnone.
Qed.

Lemma same_day_appointments_witness :
  ∃ report,
    analyze_medical_appointments true demo_csv = Done report ∧
    report_same_day report = length (filter booked_within_a_day demo_csv) ∧
    (report_same_day report = 0%nat →
     report_same_day_no_show report = NpFloat64 Np.nan).
Proof.
  destruct (analyze_medical_appointments true demo_csv) as [report|] eqn:Hreport;
    [|vm_compute in Hreport; discriminate Hreport].
  exists report. split; [done|].
  apply (same_day_appointments true demo_csv report). done.
Defined.
